(** * Ivy: backend glue and composite layers, embedded from the Python sources

    - [ivy/functional/backends/torch/experimental/sparse_array.py]
    - [ivy/functional/backends/jax/utility.py]
    - [ivy/functional/ivy/layers.py]

    Python functions become Rocq functions.  A call that may raise returns a
    [result]; the sparse-array constructor, whose claims speak about the order
    of its calls, runs in a small logging monad [M].  The native libraries
    (torch, jax.numpy) and the modules of the repository that are imported but
    not part of the sources at hand are interfaces (classes and records), so
    every statement holds for each implementation of them. *)

From Stdlib Require Import List String DecimalString ZArith QArith Lia Bool Arith.
Import ListNotations.
Close Scope Q_scope.
Open Scope string_scope.
Open Scope list_scope.

Set Implicit Arguments.

(** ** Python exceptions and results *)

Inductive exn : Type :=
| IvyException (msg : string)
| AttributeError (msg : string)
| TypeError (msg : string)
| ValueError (msg : string)
| ZeroDivisionError (msg : string).

Inductive result (A : Type) : Type :=
| Ok (a : A)
| Raise (e : exn).

Arguments Ok {A} a.
Arguments Raise {A} e.

Definition rbind {A B : Type} (r : result A) (k : A -> result B) : result B :=
  match r with
  | Ok a => k a
  | Raise e => Raise e
  end.

Declare Scope result_scope.
Delimit Scope result_scope with res.
Notation "x <- c ;; k" := (rbind c (fun x => k))
  (at level 61, c at next level, right associativity) : result_scope.
Notation "' pat <- c ;; k" := (rbind c (fun x => let 'pat := x in k))
  (at level 61, pat pattern, c at next level, right associativity) : result_scope.

(** [ivy.exists(x)] is [x is not None]. *)
Definition exists_ {A : Type} (x : option A) : bool :=
  match x with
  | Some _ => true
  | None => false
  end.

(** ** The torch library, as far as the backend touches it *)

Module torch.

(** The values of [torch.layout]. *)
Inductive layout : Type :=
| strided
| sparse_coo
| sparse_csr
| sparse_csc
| sparse_bsr
| sparse_bsc
| _mkldnn
| jagged.

Definition layout_eqb (a b : layout) : bool :=
  match a, b with
  | strided, strided
  | sparse_coo, sparse_coo
  | sparse_csr, sparse_csr
  | sparse_csc, sparse_csc
  | sparse_bsr, sparse_bsr
  | sparse_bsc, sparse_bsc
  | _mkldnn, _mkldnn
  | jagged, jagged => true
  | _, _ => false
  end.

(** What the backend uses of torch: the tensor type with its [layout]
    attribute and accessor methods, and the constructors of sparse tensors.
    [Obj] is the type of the Python objects passed as components (index
    tensors, value tensors, sizes); a keyword argument left at its default
    is [None]. *)
Class API : Type := {
  Obj : Type;
  Tensor : Type;
  layout_of : Tensor -> layout;
  coalesce : Tensor -> Tensor;
  indices : Tensor -> Obj;
  values : Tensor -> Obj;
  size : Tensor -> Obj;
  crow_indices : Tensor -> Obj;
  col_indices : Tensor -> Obj;
  ccol_indices : Tensor -> Obj;
  row_indices : Tensor -> Obj;
  sparse_coo_tensor : option Obj -> option Obj -> option Obj -> result Tensor;
  sparse_csr_tensor :
    option Obj -> option Obj -> option Obj -> option Obj -> result Tensor;
  sparse_csc_tensor :
    option Obj -> option Obj -> option Obj -> option Obj -> result Tensor;
  sparse_bsc_tensor :
    option Obj -> option Obj -> option Obj -> option Obj -> result Tensor;
  sparse_bsr_tensor :
    option Obj -> option Obj -> option Obj -> option Obj -> result Tensor
}.

End torch.

(** ** [ivy/functional/backends/torch/experimental/sparse_array.py] *)

Module sparse_array.

Import torch.

(** The five explicit formats the keyword arguments can describe. *)
Inductive format : Type := COO | CSR | CSC | BSC | BSR.

(** The formats whose branch ends in [return torch.sparse_..._tensor(...)]. *)
Definition returns_native (f : format) : bool :=
  match f with
  | COO | CSR | CSC => true
  | BSC | BSR => false
  end.

Section WithTorch.

Context {T : torch.API}.

(** The keyword-only parameters of [native_sparse_array]. *)
Record kwargs : Type := {
  coo_indices : option Obj;
  csr_crow_indices : option Obj;
  csr_col_indices : option Obj;
  csc_ccol_indices : option Obj;
  csc_row_indices : option Obj;
  bsc_ccol_indices : option Obj;
  bsc_row_indices : option Obj;
  bsr_crow_indices : option Obj;
  bsr_col_indices : option Obj;
  kw_values : option Obj;
  dense_shape : option Obj
}.

(** The names imported from [ivy.functional.ivy.experimental.sparse_array].
    That module is not among the sources, so its functions are taken as
    parameters: each predicate reads the arguments and answers or raises,
    each check passes or raises. *)
Record Helpers : Type := {
  _is_data_not_indices_values_and_shape :
    option Tensor -> kwargs -> result bool;
  _is_coo : kwargs -> result bool;
  _is_csr : kwargs -> result bool;
  _is_csc : kwargs -> result bool;
  _is_bsc : kwargs -> result bool;
  _is_bsr : kwargs -> result bool;
  _verify_coo_components :
    option Obj -> option Obj -> option Obj -> result unit;
  _verify_csr_components :
    option Obj -> option Obj -> option Obj -> option Obj -> result unit;
  _verify_csc_components :
    option Obj -> option Obj -> option Obj -> option Obj -> result unit;
  _verify_bsc_components :
    option Obj -> option Obj -> option Obj -> option Obj -> result unit;
  _verify_bsr_components :
    option Obj -> option Obj -> option Obj -> option Obj -> result unit
}.

(** The components of one format, in the order the source passes them. *)
Definition components_of (f : format) (kw : kwargs) : list (option Obj) :=
  match f with
  | COO => [coo_indices kw; kw_values kw; dense_shape kw]
  | CSR => [csr_crow_indices kw; csr_col_indices kw; kw_values kw; dense_shape kw]
  | CSC => [csc_ccol_indices kw; csc_row_indices kw; kw_values kw; dense_shape kw]
  | BSC => [bsc_ccol_indices kw; bsc_row_indices kw; kw_values kw; dense_shape kw]
  | BSR => [bsr_crow_indices kw; bsr_col_indices kw; kw_values kw; dense_shape kw]
  end.

(** *** Calls that matter for the order of events *)

Inductive event : Type :=
| Verify (f : format) (args : list (option Obj))
| Construct (f : format) (args : list (option Obj)).

(** A computation reads the log so far and returns the extended log with
    its outcome; the log survives an exception. *)
Definition M (A : Type) : Type := list event -> list event * result A.

Definition ret {A : Type} (a : A) : M A := fun log => (log, Ok a).

Definition bind {A B : Type} (m : M A) (k : A -> M B) : M B :=
  fun log =>
    match m log with
    | (log', Ok a) => k a log'
    | (log', Raise e) => (log', Raise e)
    end.

Definition lift {A : Type} (r : result A) : M A := fun log => (log, r).

Definition call {A : Type} (ev : event) (r : result A) : M A :=
  fun log => (log ++ [ev], r).

Definition run {A : Type} (m : M A) : list event * result A := m [].

(** Line 18: [x.layout in [torch.sparse_coo, torch.sparse_csr,
    torch.sparse_csc]]. *)
Definition is_native_sparse_array (x : Tensor) : bool :=
  existsb (layout_eqb (layout_of x)) [sparse_coo; sparse_csr; sparse_csc].

(** [ivy.is_native_sparse_array(data)] with torch as the backend in use:
    the function above; reading [.layout] of [None] raises. *)
Definition ivy_is_native_sparse_array (data : option Tensor) : result bool :=
  match data with
  | Some x => Ok (is_native_sparse_array x)
  | None => Raise (AttributeError "'NoneType' object has no attribute 'layout'")
  end.

(** Modelled from the spec: [ivy.assertions.check_true] is not among the
    sources; the light validation raises an [IvyException] carrying the
    message when the expression is false. *)
Definition check_true (expression : bool) (message : string) : result unit :=
  if expression then Ok tt else Raise (IvyException message).

Variable H : Helpers.

Definition verify (f : format) (kw : kwargs) : M unit :=
  call (Verify f (components_of f kw))
    match f with
    | COO => _verify_coo_components H (coo_indices kw) (kw_values kw) (dense_shape kw)
    | CSR => _verify_csr_components H (csr_crow_indices kw) (csr_col_indices kw)
               (kw_values kw) (dense_shape kw)
    | CSC => _verify_csc_components H (csc_ccol_indices kw) (csc_row_indices kw)
               (kw_values kw) (dense_shape kw)
    | BSC => _verify_bsc_components H (bsc_ccol_indices kw) (bsc_row_indices kw)
               (kw_values kw) (dense_shape kw)
    | BSR => _verify_bsr_components H (bsr_crow_indices kw) (bsr_col_indices kw)
               (kw_values kw) (dense_shape kw)
    end.

(** The native constructor of a format, on that format's components. *)
Definition native_constructor (f : format) (kw : kwargs) : result Tensor :=
  match f with
  | COO => sparse_coo_tensor (coo_indices kw) (kw_values kw) (dense_shape kw)
  | CSR => sparse_csr_tensor (csr_crow_indices kw) (csr_col_indices kw)
             (kw_values kw) (dense_shape kw)
  | CSC => sparse_csc_tensor (csc_ccol_indices kw) (csc_row_indices kw)
             (kw_values kw) (dense_shape kw)
  | BSC => sparse_bsc_tensor (bsc_ccol_indices kw) (bsc_row_indices kw)
             (kw_values kw) (dense_shape kw)
  | BSR => sparse_bsr_tensor (bsr_crow_indices kw) (bsr_col_indices kw)
             (kw_values kw) (dense_shape kw)
  end.

Definition construct (f : format) (kw : kwargs) : M Tensor :=
  call (Construct f (components_of f kw)) (native_constructor f kw).

(** Lines 22-162.  The value is [Some t] for a returned tensor and [None]
    for Python's [None], which is also what falling off the end of the
    function returns. *)
Definition native_sparse_array (data : option Tensor) (kw : kwargs)
  : M (option Tensor) :=
  bind (lift (_is_data_not_indices_values_and_shape H data kw)) (fun is_data =>
  if is_data then
    bind (lift (rbind (ivy_is_native_sparse_array data)
                  (fun b => check_true b "not a sparse array"))) (fun _ =>
    ret data)
  else
  bind (lift (_is_coo H kw)) (fun is_coo =>
  if is_coo then
    bind (verify COO kw) (fun _ =>
    bind (construct COO kw) (fun t => ret (Some t)))
  else
  bind (lift (_is_csr H kw)) (fun is_csr =>
  if is_csr then
    bind (verify CSR kw) (fun _ =>
    bind (construct CSR kw) (fun t => ret (Some t)))
  else
  bind (lift (_is_csc H kw)) (fun is_csc =>
  if is_csc then
    bind (verify CSC kw) (fun _ =>
    bind (construct CSC kw) (fun t => ret (Some t)))
  else
  bind (lift (_is_bsc H kw)) (fun is_bsc =>
  if is_bsc then
    bind (verify BSC kw) (fun _ => ret None)
  else
  bind (lift (_is_bsr H kw)) (fun is_bsr =>
  if is_bsr then
    bind (verify BSR kw) (fun _ => ret None)
  else
    ret None)))))).

(** Lines 165-193.  The first component is the returned dict, as the list
    of its items in insertion order. *)
Definition native_sparse_array_to_indices_values_and_shape (x : Tensor)
  : result (list (string * Obj) * Obj * Obj) :=
  if layout_eqb (layout_of x) sparse_coo then
    let x := coalesce x in
    Ok ([("coo_indices", indices x)], values x, size x)
  else if layout_eqb (layout_of x) sparse_csr then
    Ok ([("csr_crow_indices", crow_indices x); ("csr_col_indices", col_indices x)],
        values x, size x)
  else if layout_eqb (layout_of x) sparse_csc then
    Ok ([("csc_ccol_indices", ccol_indices x); ("csc_row_indices", row_indices x)],
        values x, size x)
  else if layout_eqb (layout_of x) sparse_bsc then
    Ok ([("bsc_ccol_indices", ccol_indices x); ("bsc_row_indices", row_indices x)],
        values x, size x)
  else if layout_eqb (layout_of x) sparse_bsr then
    Ok ([("bsr_crow_indices", crow_indices x); ("bsr_col_indices", col_indices x)],
        values x, size x)
  else Raise (IvyException "not a sparse COO/CSR/CSC/BSC/BSR Tensor").

(** The keyword arguments identify format [f]: [data] is not what was
    passed, the tests of the formats tried earlier answer no, and the
    test of [f] answers yes. *)
Definition identifies (data : option Tensor) (kw : kwargs) (f : format) : Prop :=
  _is_data_not_indices_values_and_shape H data kw = Ok false /\
  match f with
  | COO => _is_coo H kw = Ok true
  | CSR => _is_coo H kw = Ok false /\ _is_csr H kw = Ok true
  | CSC => _is_coo H kw = Ok false /\ _is_csr H kw = Ok false /\
           _is_csc H kw = Ok true
  | BSC => _is_coo H kw = Ok false /\ _is_csr H kw = Ok false /\
           _is_csc H kw = Ok false /\ _is_bsc H kw = Ok true
  | BSR => _is_coo H kw = Ok false /\ _is_csr H kw = Ok false /\
           _is_csc H kw = Ok false /\ _is_bsc H kw = Ok false /\
           _is_bsr H kw = Ok true
  end.

(** The outcome of the check of format [f], without the log. *)
Definition verify_outcome (f : format) (kw : kwargs) : result unit :=
  snd (run (verify f kw)).

End WithTorch.

End sparse_array.

(** ** A small implementation of the interfaces, to run the functions on

    Index tensors, values and sizes are lists of integers; a sparse tensor
    keeps its layout and the components it was built from. *)

Module reference.

Import torch sparse_array.

Record tensor : Type := {
  t_layout : layout;
  t_compressed : list Z;
  t_plain : list Z;
  t_values : list Z;
  t_size : list Z
}.

Definition build4 (l : layout) (a b v s : option (list Z)) : result tensor :=
  match a, b, v, s with
  | Some a, Some b, Some v, Some s =>
      Ok {| t_layout := l; t_compressed := a; t_plain := b;
            t_values := v; t_size := s |}
  | _, _, _, _ => Raise (TypeError "a component is None")
  end.

#[export] Instance api : torch.API := {|
  Obj := list Z;
  Tensor := tensor;
  layout_of := t_layout;
  coalesce := fun x => x;
  indices := t_plain;
  values := t_values;
  size := t_size;
  crow_indices := t_compressed;
  col_indices := t_plain;
  ccol_indices := t_compressed;
  row_indices := t_plain;
  sparse_coo_tensor := fun i v s => build4 sparse_coo (Some []) i v s;
  sparse_csr_tensor := build4 sparse_csr;
  sparse_csc_tensor := build4 sparse_csc;
  sparse_bsc_tensor := build4 sparse_bsc;
  sparse_bsr_tensor := build4 sparse_bsr
|}.

Definition all_given (l : list (option (list Z))) : bool := forallb exists_ l.

Definition any_given (l : list (option (list Z))) : bool := existsb exists_ l.

(** The index arguments of every format other than [f]. *)
Definition other_indices (f : format) (kw : kwargs) : list (option (list Z)) :=
  (match f with COO => [] | _ => [coo_indices kw] end) ++
  (match f with CSR => [] | _ => [csr_crow_indices kw; csr_col_indices kw] end) ++
  (match f with CSC => [] | _ => [csc_ccol_indices kw; csc_row_indices kw] end) ++
  (match f with BSC => [] | _ => [bsc_ccol_indices kw; bsc_row_indices kw] end) ++
  (match f with BSR => [] | _ => [bsr_crow_indices kw; bsr_col_indices kw] end).

(** Modelled from the spec: the predicates of
    [ivy.functional.ivy.experimental.sparse_array] are not among the
    sources.  A format is identified when all of its components are given;
    giving indices of another format as well is refused. *)
Definition is_format (f : format) (kw : kwargs) : result bool :=
  if all_given (components_of f kw) then
    if any_given (other_indices f kw)
    then Raise (IvyException "only specify the components of one format")
    else Ok true
  else Ok false.

(** Modelled from the spec: [data] is what was passed when it is not [None];
    giving components as well is refused. *)
Definition is_data (data : option tensor) (kw : kwargs) : result bool :=
  match data with
  | Some _ =>
      if any_given (coo_indices kw :: kw_values kw :: dense_shape kw
                      :: other_indices COO kw)
      then Raise (IvyException "only specify either data or components")
      else Ok true
  | None => Ok false
  end.

(** Modelled from the spec: the light validation of components; here, that
    each is given and that there are values. *)
Definition check_components (l : list (option (list Z))) : result unit :=
  if all_given l then
    match nth 1 (rev l) None with
    | Some [] => Raise (IvyException "values must not be empty")
    | _ => Ok tt
    end
  else Raise (IvyException "all components must be specified").

Definition helpers : Helpers := {|
  _is_data_not_indices_values_and_shape := is_data;
  _is_coo := is_format COO;
  _is_csr := is_format CSR;
  _is_csc := is_format CSC;
  _is_bsc := is_format BSC;
  _is_bsr := is_format BSR;
  _verify_coo_components := fun i v s => check_components [i; v; s];
  _verify_csr_components := fun a b v s => check_components [a; b; v; s];
  _verify_csc_components := fun a b v s => check_components [a; b; v; s];
  _verify_bsc_components := fun a b v s => check_components [a; b; v; s];
  _verify_bsr_components := fun a b v s => check_components [a; b; v; s]
|}.

Definition no_kwargs : kwargs := {|
  coo_indices := None;
  csr_crow_indices := None; csr_col_indices := None;
  csc_ccol_indices := None; csc_row_indices := None;
  bsc_ccol_indices := None; bsc_row_indices := None;
  bsr_crow_indices := None; bsr_col_indices := None;
  kw_values := None; dense_shape := None
|}.

(** [native_sparse_array(bsc_ccol_indices=[0, 1, 2], bsc_row_indices=[0, 1],
    values=[1, 2], dense_shape=(2, 2))]. *)
Definition bsc_kwargs : kwargs := {|
  coo_indices := None;
  csr_crow_indices := None; csr_col_indices := None;
  csc_ccol_indices := None; csc_row_indices := None;
  bsc_ccol_indices := Some [0; 1; 2]%Z; bsc_row_indices := Some [0; 1]%Z;
  bsr_crow_indices := None; bsr_col_indices := None;
  kw_values := Some [1; 2]%Z; dense_shape := Some [2; 2]%Z
|}.

(** The same components given as a BSR tensor's. *)
Definition bsr_kwargs : kwargs := {|
  coo_indices := None;
  csr_crow_indices := None; csr_col_indices := None;
  csc_ccol_indices := None; csc_row_indices := None;
  bsc_ccol_indices := None; bsc_row_indices := None;
  bsr_crow_indices := Some [0; 1; 2]%Z; bsr_col_indices := Some [0; 1]%Z;
  kw_values := Some [1; 2]%Z; dense_shape := Some [2; 2]%Z
|}.

Definition csr_kwargs : kwargs := {|
  coo_indices := None;
  csr_crow_indices := Some [0; 1; 2]%Z; csr_col_indices := Some [0; 1]%Z;
  csc_ccol_indices := None; csc_row_indices := None;
  bsc_ccol_indices := None; bsc_row_indices := None;
  bsr_crow_indices := None; bsr_col_indices := None;
  kw_values := Some [1; 2]%Z; dense_shape := Some [2; 2]%Z
|}.

Definition a_tensor (l : layout) : tensor := {|
  t_layout := l; t_compressed := [0; 1; 2]%Z; t_plain := [0; 1]%Z;
  t_values := [1; 2]%Z; t_size := [2; 2]%Z
|}.

End reference.

(** ** [ivy/functional/backends/jax/utility.py] *)

(** What the backend uses of [jax.numpy]. *)
Module jnp.

(** An axis specification: an int, a tuple of ints or a list of ints. *)
Inductive axis_spec : Type :=
| AxisInt (i : Z)
| AxisTuple (l : list Z)
| AxisList (l : list Z).

(** [jnp.all(a, axis, keepdims=...)] and [jnp.any(a, axis, keepdims=...)]:
    the native reductions, which answer with an array or raise. *)
Class API : Type := {
  JaxArray : Type;
  all : JaxArray -> option axis_spec -> bool -> result JaxArray;
  any : JaxArray -> option axis_spec -> bool -> result JaxArray
}.

End jnp.

Module jax_utility.

Section WithJax.

Context {J : jnp.API}.

(** Lines 9-15: [ret = jnp.all(x, axis, keepdims=keepdims); return ret]. *)
Definition all (x : jnp.JaxArray) (axis : option jnp.axis_spec) (keepdims : bool)
  : result jnp.JaxArray :=
  (ret <- jnp.all x axis keepdims ;; Ok ret)%res.

(** Lines 18-24. *)
Definition any (x : jnp.JaxArray) (axis : option jnp.axis_spec) (keepdims : bool)
  : result jnp.JaxArray :=
  (ret <- jnp.any x axis keepdims ;; Ok ret)%res.

(** The parameters left at their defaults: [axis=None], [keepdims=False]. *)
Definition all_default (x : jnp.JaxArray) : result jnp.JaxArray := all x None false.

Definition any_default (x : jnp.JaxArray) : result jnp.JaxArray := any x None false.

End WithJax.

End jax_utility.

(** ** [ivy/functional/ivy/layers.py]: dispatch of the convolutions *)

Module dispatch.

(** Python values passed through as strides, paddings, dilations and output
    shapes. *)
Inductive pyval : Type :=
| PyInt (z : Z)
| PyStr (s : string)
| PyInts (l : list Z).

Section WithBackends.

Variable Array : Type.

(** A backend module, as far as the convolutions go: the functions of the
    unified API by name.  The plain convolutions take [x, filters, strides,
    padding, data_format, dilations]; the transposed ones take [output_shape]
    before [data_format]. *)
Record Framework : Type := {
  fw_conv1d :
    Array -> Array -> pyval -> pyval -> string -> pyval -> result Array;
  fw_conv1d_transpose :
    Array -> Array -> pyval -> pyval -> option pyval -> string -> pyval ->
    result Array;
  fw_conv2d :
    Array -> Array -> pyval -> pyval -> string -> pyval -> result Array;
  fw_conv2d_transpose :
    Array -> Array -> pyval -> pyval -> option pyval -> string -> pyval ->
    result Array;
  fw_depthwise_conv2d :
    Array -> Array -> pyval -> pyval -> string -> pyval -> result Array;
  fw_conv3d :
    Array -> Array -> pyval -> pyval -> string -> pyval -> result Array;
  fw_conv3d_transpose :
    Array -> Array -> pyval -> pyval -> option pyval -> string -> pyval ->
    result Array
}.

(** [ivy.framework_handler.current_framework], imported as [_cur_framework]:
    the module is not among the sources, so the function is a parameter.  It
    selects the backend module for [x], or raises. *)
Variable _cur_framework : Array -> result Framework.

(** Lines 248-290. *)
Definition conv1d x filters strides padding data_format dilations : result Array :=
  (fw <- _cur_framework x ;;
   fw_conv1d fw x filters strides padding data_format dilations)%res.

(** Lines 293-324. *)
Definition conv1d_transpose x filters strides padding output_shape data_format
  dilations : result Array :=
  (fw <- _cur_framework x ;;
   fw_conv1d_transpose fw x filters strides padding output_shape data_format
     dilations)%res.

(** Lines 327-354. *)
Definition conv2d x filters strides padding data_format dilations : result Array :=
  (fw <- _cur_framework x ;;
   fw_conv2d fw x filters strides padding data_format dilations)%res.

(** Lines 357-388. *)
Definition conv2d_transpose x filters strides padding output_shape data_format
  dilations : result Array :=
  (fw <- _cur_framework x ;;
   fw_conv2d_transpose fw x filters strides padding output_shape data_format
     dilations)%res.

(** Lines 391-418. *)
Definition depthwise_conv2d x filters strides padding data_format dilations
  : result Array :=
  (fw <- _cur_framework x ;;
   fw_depthwise_conv2d fw x filters strides padding data_format dilations)%res.

(** Lines 422-473. *)
Definition conv3d x filters strides padding data_format dilations : result Array :=
  (fw <- _cur_framework x ;;
   fw_conv3d fw x filters strides padding data_format dilations)%res.

(** Lines 476-507. *)
Definition conv3d_transpose x filters strides padding output_shape data_format
  dilations : result Array :=
  (fw <- _cur_framework x ;;
   fw_conv3d_transpose fw x filters strides padding output_shape data_format
     dilations)%res.

(** The calls with every optional parameter left at its default. *)
Definition conv1d_default x filters strides padding :=
  conv1d x filters strides padding "NWC" (PyInt 1).

Definition conv1d_transpose_default x filters strides padding :=
  conv1d_transpose x filters strides padding None "NWC" (PyInt 1).

Definition conv2d_default x filters strides padding :=
  conv2d x filters strides padding "NHWC" (PyInt 1).

Definition conv2d_transpose_default x filters strides padding :=
  conv2d_transpose x filters strides padding None "NHWC" (PyInt 1).

Definition depthwise_conv2d_default x filters strides padding :=
  depthwise_conv2d x filters strides padding "NHWC" (PyInt 1).

Definition conv3d_default x filters strides padding :=
  conv3d x filters strides padding "NDHWC" (PyInt 1).

Definition conv3d_transpose_default x filters strides padding :=
  conv3d_transpose x filters strides padding None "NDHWC" (PyInt 1).

End WithBackends.

End dispatch.

(** ** [ivy/functional/ivy/layers.py]: the composite layers *)

(** The element type of the arrays with its arithmetic.  The operations are
    those of the dtype in use, floating point included: nothing is assumed of
    them here, and the few identities a statement needs are stated apart in
    [ScalarLaws]. *)
Class Scalar : Type := {
  F : Type;
  zero : F;
  one : F;
  add : F -> F -> F;
  sub : F -> F -> F;
  mul : F -> F -> F;
  div : F -> F -> F;
  neg : F -> F;
  exp : F -> F;
  tanh : F -> F;
  sigmoid : F -> F;
  ltb : F -> F -> bool;
  eqb : F -> F -> bool;
  (** [np.finfo(dtype).max], the largest finite value of the dtype. *)
  finfo_max : F
}.

(** Identities of the arithmetic that the statements below rely on. *)
Class ScalarLaws (S : Scalar) : Prop := {
  mul_comm : forall a b : F, mul a b = mul b a;
  mul_one_r : forall a : F, mul a one = a;
  neg_one_mul : forall a : F, mul (neg one) a = neg a;
  sub_one_zero : sub one zero = one;
  sub_one_one : sub one one = zero;
  div_one_one : div one one = one;
  eqb_zero_zero : eqb zero zero = true;
  eqb_one_zero : eqb one zero = false
}.

Module layers.

Section WithScalar.

Context {S : Scalar}.

(** *** Arrays

    An array is its shape and its entries by index.  The attention and LSTM
    layers are taken at the ranks their docstrings give with one batch axis:
    matrices and rank-3 arrays; dropout takes an array of any rank. *)

Record ndarray (A : Type) : Type := {
  shape : list nat;
  item : list nat -> A
}.

Record tensor1 : Type := {
  len1 : nat;
  at1 : nat -> F
}.

Record tensor2 : Type := {
  rows : nat;
  cols : nat;
  at2 : nat -> nat -> F
}.

Record tensor3 (A : Type) : Type := {
  dim0 : nat;
  dim1 : nat;
  dim2 : nat;
  at3 : nat -> nat -> nat -> A
}.

(** The sum of [f 0], ..., [f (n - 1)], accumulated from the left. *)
Definition sum_n (n : nat) (f : nat -> F) : F :=
  fold_left add (map f (seq 0 n)) zero.

(** *** The primitives of the unified API that the layers compose

    The functions [ivy.where], [ivy.einsum], [ivy.softmax], ... and the
    operators of arrays are not among the sources.  The specification has
    each of them pass the call through to the native operation of the same
    name; each is written out below by the entries of its result. *)

(** Modelled from the spec: [ivy.where(condition, x1, x2)], entry by entry. *)
Definition where_nd (c : ndarray bool) (a b : ndarray F) : ndarray F :=
  {| shape := shape a;
     item := fun i => if item c i then item a i else item b i |}.

(** Modelled from the spec: [ivy.zeros_like(x)]. *)
Definition zeros_like_nd (x : ndarray F) : ndarray F :=
  {| shape := shape x; item := fun _ => zero |}.

(** Modelled from the spec: the operator [array < scalar]. *)
Definition lt_scalar_nd (u : ndarray F) (p : F) : ndarray bool :=
  {| shape := shape u; item := fun i => ltb (item u i) p |}.

(** Modelled from the spec: the operator [array * scalar]. *)
Definition mul_scalar_nd (x : ndarray F) (k : F) : ndarray F :=
  {| shape := shape x; item := fun i => mul (item x i) k |}.

(** Python's [a / b] on Python numbers, with the text of the exception
    that integer operands give; with a float divisor the text starts with
    the word float. *)
Definition py_div (a b : F) : result F :=
  if eqb b zero then Raise (ZeroDivisionError "division by zero")
  else Ok (div a b).

(** Modelled from the spec: [ivy.einsum("... q f, ... k f -> ... q k", q, k)],
    the sum over [f] of the products of the entries at [q f] and [k f]. *)
Definition einsum_qf_kf_qk (q k : tensor3 F) : tensor3 F :=
  {| dim0 := dim0 q; dim1 := dim1 q; dim2 := dim1 k;
     at3 := fun b i j =>
       sum_n (dim2 q) (fun f => mul (at3 q b i f) (at3 k b j f)) |}.

(** Modelled from the spec: [ivy.einsum("... q k, ... k f -> ... q f", attn, v)],
    the sum over [k] of the products of the entries at [q k] and [k f]. *)
Definition einsum_qk_kf_qf (a v : tensor3 F) : tensor3 F :=
  {| dim0 := dim0 a; dim1 := dim1 a; dim2 := dim2 v;
     at3 := fun b i f =>
       sum_n (dim2 a) (fun k => mul (at3 a b i k) (at3 v b k f)) |}.

(** Modelled from the spec: the operator [array * scalar] at rank 3. *)
Definition mul_scalar3 (x : tensor3 F) (k : F) : tensor3 F :=
  {| dim0 := dim0 x; dim1 := dim1 x; dim2 := dim2 x;
     at3 := fun b i j => mul (at3 x b i j) k |}.

(** Modelled from the spec: [ivy.ones_like(x)]. *)
Definition ones_like3 (x : tensor3 F) : tensor3 F :=
  {| dim0 := dim0 x; dim1 := dim1 x; dim2 := dim2 x;
     at3 := fun _ _ _ => one |}.

(** Modelled from the spec: the operator [-array]. *)
Definition neg3 (x : tensor3 F) : tensor3 F :=
  {| dim0 := dim0 x; dim1 := dim1 x; dim2 := dim2 x;
     at3 := fun b i j => neg (at3 x b i j) |}.

(** Modelled from the spec: [ivy.logical_not(mask)]. *)
Definition logical_not3 (m : tensor3 bool) : tensor3 bool :=
  {| dim0 := dim0 m; dim1 := dim1 m; dim2 := dim2 m;
     at3 := fun b i j => negb (at3 m b i j) |}.

(** Modelled from the spec: [ivy.where(condition, x1, x2)] at rank 3. *)
Definition where3 (c : tensor3 bool) (a b : tensor3 F) : tensor3 F :=
  {| dim0 := dim0 a; dim1 := dim1 a; dim2 := dim2 a;
     at3 := fun n i j => if at3 c n i j then at3 a n i j else at3 b n i j |}.

(** Modelled from the spec: [ivy.softmax(x, -1)], the exponential of each
    entry over the sum of the exponentials along the last axis.  The
    backends subtract the maximum of the row first; over exact scalars the
    quotient is the same. *)
Definition softmax3 (x : tensor3 F) : tensor3 F :=
  {| dim0 := dim0 x; dim1 := dim1 x; dim2 := dim2 x;
     at3 := fun b i j =>
       div (exp (at3 x b i j))
           (sum_n (dim2 x) (fun j' => exp (at3 x b i j'))) |}.

(** Modelled from the spec: [ivy.matmul] of two matrices. *)
Definition matmul (a w : tensor2) : tensor2 :=
  {| rows := rows a; cols := cols w;
     at2 := fun r j => sum_n (cols a) (fun i => mul (at2 a r i) (at2 w i j)) |}.

(** Modelled from the spec: the operator [+] in
    [m + (bias if bias is not None else 0)]: the bias is added to every row;
    without one, the integer 0 is. *)
Definition add_bias (m : tensor2) (bias : option tensor1) : tensor2 :=
  {| rows := rows m; cols := cols m;
     at2 := fun r j =>
       add (at2 m r j) match bias with Some b => at1 b j | None => zero end |}.

(** Modelled from the spec: [ivy.reshape(x, (-1, input_channels))] of
    [x : [batch, t, in]], in row-major order.  This is the reshaped array
    when [x] has no empty axis; [lstm_reshape] has the refusal otherwise. *)
Definition reshape_flat (x : tensor3 F) : tensor2 :=
  {| rows := dim0 x * dim1 x; cols := dim2 x;
     at2 := fun r i => at3 x (r / dim1 x) (r mod dim1 x) i |}.

(** Modelled from the spec: [ivy.reshape(m, batch_shape + [timesteps, -1])],
    when neither [batch] nor [timesteps] is zero; [lstm_reshape] has the
    refusal otherwise. *)
Definition reshape_batch (m : tensor2) (batch timesteps : nat) : tensor3 F :=
  {| dim0 := batch; dim1 := timesteps; dim2 := cols m;
     at3 := fun b t j => at2 m (b * timesteps + t) j |}.

Definition split_error : exn :=
  ValueError "array split does not result in an equal division".

(** Modelled from the spec: part [p] of [ivy.split(x, 4, -1)]. *)
Definition part3 (x : tensor3 F) (p : nat) : tensor3 F :=
  {| dim0 := dim0 x; dim1 := dim1 x; dim2 := dim2 x / 4;
     at3 := fun b t j => at3 x b t (p * (dim2 x / 4) + j) |}.

(** Modelled from the spec: [ivy.split(x, 4, -1)], four equal parts along
    the last axis; a length that 4 does not divide is refused. *)
Definition split4_3 (x : tensor3 F)
  : result (tensor3 F * tensor3 F * tensor3 F * tensor3 F) :=
  if Nat.eqb (dim2 x mod 4) 0
  then Ok (part3 x 0, part3 x 1, part3 x 2, part3 x 3)
  else Raise split_error.

(** Modelled from the spec: part [p] of [ivy.split(x, 4, -1)] of a matrix. *)
Definition part2 (x : tensor2) (p : nat) : tensor2 :=
  {| rows := rows x; cols := cols x / 4;
     at2 := fun b j => at2 x b (p * (cols x / 4) + j) |}.

(** Modelled from the spec: [ivy.split(x, num_or_size_splits=4, axis=-1)] of
    a matrix. *)
Definition split4_2 (x : tensor2) : result (tensor2 * tensor2 * tensor2 * tensor2) :=
  if Nat.eqb (cols x mod 4) 0
  then Ok (part2 x 0, part2 x 1, part2 x 2, part2 x 3)
  else Raise split_error.

(** Modelled from the spec: the slice of [x] at time [t]. *)
Definition slice_t (x : tensor3 F) (t : nat) : tensor2 :=
  {| rows := dim0 x; cols := dim2 x; at2 := fun b j => at3 x b t j |}.

(** Modelled from the spec: [ivy.unstack(x, axis=-2)], the list of the
    slices along the time axis. *)
Definition unstack (x : tensor3 F) : list tensor2 :=
  map (slice_t x) (seq 0 (dim1 x)).

(** Modelled from the spec: [ivy.expand_dims(h, -2)]. *)
Definition expand_dims (h : tensor2) : tensor3 F :=
  {| dim0 := rows h; dim1 := 1; dim2 := cols h;
     at3 := fun b _ j => at2 h b j |}.

(** Modelled from the spec: a binary operator ([+], [*]) of two matrices of
    one shape, entry by entry. *)
Definition map2 (f : F -> F -> F) (a b : tensor2) : tensor2 :=
  {| rows := rows a; cols := cols a;
     at2 := fun r j => f (at2 a r j) (at2 b r j) |}.

(** Modelled from the spec: an activation ([ivy.sigmoid], [ivy.tanh]),
    entry by entry. *)
Definition map1 (f : F -> F) (a : tensor2) : tensor2 :=
  {| rows := rows a; cols := cols a; at2 := fun r j => f (at2 a r j) |}.

Definition concat_error : exn :=
  ValueError "need at least one array to concatenate".

(** Modelled from the spec: the entry at time [t] of the concatenation along
    the time axis. *)
Fixpoint concat_at (l : list (tensor3 F)) (b t j : nat) : F :=
  match l with
  | [] => zero
  | p :: l' =>
      if Nat.ltb t (dim1 p) then at3 p b t j
      else concat_at l' b (t - dim1 p) j
  end.

(** Modelled from the spec: [ivy.concat(xs, -2)]; the native operation
    refuses an empty list. *)
Definition concat (l : list (tensor3 F)) : result (tensor3 F) :=
  match l with
  | [] => Raise concat_error
  | p :: _ =>
      Ok {| dim0 := dim0 p;
            dim1 := fold_right (fun q n => dim1 q + n) 0 l;
            dim2 := dim2 p;
            at3 := concat_at l |}
  end.

(** Python's [zip] of four lists. *)
Definition zip4 {A : Type} (a b c d : list A) : list (A * A * A * A) :=
  map (fun '(w, x, (y, z)) => (w, x, y, z))
      (combine (combine a b) (combine c d)).

(** *** [dropout], lines 79-106

    [u] is the array that [ivy.random_uniform(shape=x.shape, ...)] returns:
    the draw is an input. *)
Definition dropout (x : ndarray F) (prob : F) (scale : bool) (u : ndarray F)
  : result (ndarray F) :=
  let x := where_nd (lt_scalar_nd u prob) (zeros_like_nd x) x in
  if scale then
    (k <- py_div one (sub one prob) ;; Ok (mul_scalar_nd x k))%res
  else Ok x.

(** *** [scaled_dot_product_attention], lines 112-152 *)
Definition scaled_dot_product_attention (q k v : tensor3 F) (scale : F)
  (mask : option (tensor3 bool)) : tensor3 F :=
  let sim := mul_scalar3 (einsum_qf_kf_qk q k) scale in
  let sim :=
    match mask with
    | Some mask =>
        where3 (logical_not3 mask)
               (mul_scalar3 (neg3 (ones_like3 sim)) finfo_max)
               sim
    | None => sim
    end in
  let attn := softmax3 sim in
  einsum_qk_kf_qf attn v.

(** *** [lstm_update], lines 513-593 *)

(** The state of the loop: [ht], [ct] and [hts_list]. *)
Definition loop_state : Type := (tensor2 * tensor2 * list (tensor3 F))%type.

(** The body of the loop, lines 574-591. *)
Definition lstm_body (Wh : tensor2) (recurrent_bias : option tensor1)
  (st : loop_state) (xs : tensor2 * tensor2 * tensor2 * tensor2)
  : result loop_state :=
  let '(ht, ct, hts_list) := st in
  let '(Wii_xt, Wif_xt, Wig_xt, Wio_xt) := xs in
  let htm1 := ht in
  let ctm1 := ct in
  let Wh_htm1 := add_bias (matmul htm1 Wh) recurrent_bias in
  ('(Whi_htm1, Whf_htm1, Whg_htm1, Who_htm1) <- split4_2 Wh_htm1 ;;
   let it := map1 sigmoid (map2 add Wii_xt Whi_htm1) in
   let ft := map1 sigmoid (map2 add Wif_xt Whf_htm1) in
   let gt := map1 tanh (map2 add Wig_xt Whg_htm1) in
   let ot := map1 sigmoid (map2 add Wio_xt Who_htm1) in
   let ct := map2 add (map2 mul ft ctm1) (map2 mul it gt) in
   let ht := map2 mul ot (map1 tanh ct) in
   Ok (ht, ct, hts_list ++ [expand_dims ht]))%res.

(** The [for] loop over the zipped slices. *)
Fixpoint lstm_loop (Wh : tensor2) (recurrent_bias : option tensor1)
  (st : loop_state) (l : list (tensor2 * tensor2 * tensor2 * tensor2))
  : result loop_state :=
  match l with
  | [] => Ok st
  | xs :: l' =>
      (st' <- lstm_body Wh recurrent_bias st xs ;;
       lstm_loop Wh recurrent_bias st' l')%res
  end.

(** Lines 543-573: the input projections, split and unstacked, as the list
    the loop runs over. *)
Definition lstm_inputs (x : tensor3 F) (kernel : tensor2) (bias : option tensor1)
  : result (list (tensor2 * tensor2 * tensor2 * tensor2)) :=
  let batch := dim0 x in
  let timesteps := dim1 x in
  let x_flat := reshape_flat x in
  let Wi := kernel in
  let Wi_x := reshape_batch (add_bias (matmul x_flat Wi) bias) batch timesteps in
  ('(Wii_x, Wif_x, Wig_x, Wio_x) <- split4_3 Wi_x ;;
   Ok (zip4 (unstack Wii_x) (unstack Wif_x) (unstack Wig_x) (unstack Wio_x)))%res.

(** The array [Wi_x] of the source, and the four slices the loop gets at
    time [t]. *)
Definition input_projection (x : tensor3 F) (kernel : tensor2) (bias : option tensor1)
  : tensor3 F :=
  reshape_batch (add_bias (matmul (reshape_flat x) kernel) bias) (dim0 x) (dim1 x).

Definition gate_slices (x : tensor3 F) (kernel : tensor2) (bias : option tensor1)
  (t : nat) : tensor2 * tensor2 * tensor2 * tensor2 :=
  let Wi_x := input_projection x kernel bias in
  (slice_t (part3 Wi_x 0) t, slice_t (part3 Wi_x 1) t,
   slice_t (part3 Wi_x 2) t, slice_t (part3 Wi_x 3) t).

Definition lstm_update (x : tensor3 F) (init_h init_c kernel recurrent_kernel : tensor2)
  (bias recurrent_bias : option tensor1) : result (tensor3 F * tensor2) :=
  (slices <- lstm_inputs x kernel bias ;;
   let Wh := recurrent_kernel in
   let ht := init_h in
   let ct := init_c in
   let hts_list := [] in
   '(ht, ct, hts_list) <- lstm_loop Wh recurrent_bias (ht, ct, hts_list) slices ;;
   hs <- concat hts_list ;;
   Ok (hs, ct))%res.

End WithScalar.

End layers.

(** ** [lstm_update] with the refusals of [ivy.reshape]

    [layers.reshape_flat] and [layers.reshape_batch] give the reshaped array
    of an array with no empty axis.  The two calls of lines 547 and 551-554
    leave one dimension open ([-1]); the native reshape infers it from the
    size of the array and refuses when the dimensions that are given
    multiply to zero, since every value would then fit.  This module writes
    [lstm_update] with that inference. *)

Module lstm_reshape.

Import layers.

Section WithScalar.

Context {S : Scalar}.

(** The exception of a reshape that cannot infer its open dimension, for an
    array of [size] entries.  The text is the beginning of NumPy's, which
    goes on with the requested shape; the backends differ in the text and
    in the class of the exception, not in refusing. *)
Definition reshape_error (size : nat) : exn :=
  ValueError ("cannot reshape array of size " ++
              NilEmpty.string_of_uint (Nat.to_uint size)).

(** Modelled from the spec: the dimension written [-1] in the shape given to
    [ivy.reshape], for an array of [size] entries when the other dimensions
    multiply to [known]: [size / known] when that is determined and exact. *)
Definition infer_dimension (size known : nat) : result nat :=
  if Nat.eqb known 0 then Raise (reshape_error size)
  else if Nat.eqb (size mod known) 0 then Ok (size / known)
  else Raise (reshape_error size).

(** Modelled from the spec: [ivy.reshape(x, (-1, input_channels))] of
    [x : [batch, t, in]], with [input_channels = in] (line 546). *)
Definition reshape_flat (x : tensor3 F) : result tensor2 :=
  let input_channels := dim2 x in
  (n <- infer_dimension (dim0 x * dim1 x * dim2 x) input_channels ;;
   Ok {| rows := n; cols := input_channels;
         at2 := fun r i => at3 x (r / dim1 x) (r mod dim1 x) i |})%res.

(** Modelled from the spec: [ivy.reshape(m, batch_shape + [timesteps, -1])]
    of a matrix [m] of [batch * timesteps] rows. *)
Definition reshape_batch (m : tensor2) (batch timesteps : nat)
  : result (tensor3 F) :=
  (n <- infer_dimension (rows m * cols m) (batch * timesteps) ;;
   Ok {| dim0 := batch; dim1 := timesteps; dim2 := n;
         at3 := fun b t j => at2 m (b * timesteps + t) j |})%res.

(** Lines 543-573: the input projections, split and unstacked, as the list
    the loop runs over. *)
Definition lstm_inputs (x : tensor3 F) (kernel : tensor2) (bias : option tensor1)
  : result (list (tensor2 * tensor2 * tensor2 * tensor2)) :=
  let batch := dim0 x in
  let timesteps := dim1 x in
  (x_flat <- reshape_flat x ;;
   let Wi := kernel in
   Wi_x <- reshape_batch (add_bias (matmul x_flat Wi) bias) batch timesteps ;;
   '(Wii_x, Wif_x, Wig_x, Wio_x) <- split4_3 Wi_x ;;
   Ok (zip4 (unstack Wii_x) (unstack Wif_x) (unstack Wig_x) (unstack Wio_x)))%res.

Definition lstm_update (x : tensor3 F) (init_h init_c kernel recurrent_kernel : tensor2)
  (bias recurrent_bias : option tensor1) : result (tensor3 F * tensor2) :=
  (slices <- lstm_inputs x kernel bias ;;
   let Wh := recurrent_kernel in
   let ht := init_h in
   let ct := init_c in
   let hts_list := [] in
   '(ht, ct, hts_list) <- lstm_loop Wh recurrent_bias (ht, ct, hts_list) slices ;;
   hs <- concat hts_list ;;
   Ok (hs, ct))%res.

End WithScalar.

End lstm_reshape.

(** ** The formulas the specification names, written out on their own *)

Module textbook.

Import layers.

Section WithScalar.

Context {S : Scalar}.

(** Two arrays with the same shape and the same entries. *)
Definition same_nd (a b : ndarray F) : Prop :=
  shape a = shape b /\ forall i, item a i = item b i.

Definition same2 (a b : tensor2) : Prop :=
  rows a = rows b /\ cols a = cols b /\ forall r j, at2 a r j = at2 b r j.

Definition same3 (a b : tensor3 F) : Prop :=
  dim0 a = dim0 b /\ dim1 a = dim1 b /\ dim2 a = dim2 b /\
  forall n i j, at3 a n i j = at3 b n i j.

(** [kT]: the last two axes exchanged. *)
Definition transpose (k : tensor3 F) : tensor3 F :=
  {| dim0 := dim0 k; dim1 := dim2 k; dim2 := dim1 k;
     at3 := fun b f j => at3 k b j f |}.

(** The batched matrix product [a . b]. *)
Definition bmm (a b : tensor3 F) : tensor3 F :=
  {| dim0 := dim0 a; dim1 := dim1 a; dim2 := dim2 b;
     at3 := fun n i j =>
       sum_n (dim2 a) (fun l => mul (at3 a n i l) (at3 b n l j)) |}.

(** [scale * x]. *)
Definition scale_by (scale : F) (x : tensor3 F) : tensor3 F :=
  {| dim0 := dim0 x; dim1 := dim1 x; dim2 := dim2 x;
     at3 := fun n i j => mul scale (at3 x n i j) |}.

(** The most negative representable value of the dtype. *)
Definition most_negative : F := neg finfo_max.

(** Every entry whose mask entry is false replaced by the most negative
    value. *)
Definition masked_fill (mask : tensor3 bool) (x : tensor3 F) : tensor3 F :=
  {| dim0 := dim0 x; dim1 := dim1 x; dim2 := dim2 x;
     at3 := fun n i j => if at3 mask n i j then at3 x n i j else most_negative |}.

(** softmax(scale * q.kT, last axis).v, the mask applied before the
    softmax when there is one. *)
Definition attention (q k v : tensor3 F) (scale : F) (mask : option (tensor3 bool))
  : tensor3 F :=
  let sim := scale_by scale (bmm q (transpose k)) in
  let sim := match mask with Some m => masked_fill m sim | None => sim end in
  bmm (softmax3 sim) v.

(** The block of a [4 * out]-column weight matrix that belongs to gate [p]
    (0: input, 1: forget, 2: cell, 3: output), and the same for a bias. *)
Definition gate_weights (w : tensor2) (p : nat) : tensor2 :=
  {| rows := rows w; cols := cols w / 4;
     at2 := fun i j => at2 w i (p * (cols w / 4) + j) |}.

Definition gate_bias (b : option tensor1) (out p : nat) : option tensor1 :=
  match b with
  | Some b => Some {| len1 := out; at1 := fun j => at1 b (p * out + j) |}
  | None => None
  end.

(** [W_p . xt + W'_p . h(t-1)], each product with its bias when there is
    one. *)
Definition pre_activation (kernel recurrent_kernel : tensor2)
  (bias recurrent_bias : option tensor1) (p : nat) (xt h : tensor2) : tensor2 :=
  map2 add
    (add_bias (matmul xt (gate_weights kernel p))
       (gate_bias bias (cols kernel / 4) p))
    (add_bias (matmul h (gate_weights recurrent_kernel p))
       (gate_bias recurrent_bias (cols recurrent_kernel / 4) p)).

(** One step of the LSTM recurrence, from [(h(t-1), c(t-1))] and [xt] to
    [(ht, ct)]. *)
Definition lstm_step (kernel recurrent_kernel : tensor2)
  (bias recurrent_bias : option tensor1) (hc : tensor2 * tensor2) (xt : tensor2)
  : tensor2 * tensor2 :=
  let '(h, c) := hc in
  let pre := fun p => pre_activation kernel recurrent_kernel bias recurrent_bias p xt h in
  let it := map1 sigmoid (pre 0) in
  let ft := map1 sigmoid (pre 1) in
  let gt := map1 tanh (pre 2) in
  let ot := map1 sigmoid (pre 3) in
  let ct := map2 add (map2 mul ft c) (map2 mul it gt) in
  let ht := map2 mul ot (map1 tanh ct) in
  (ht, ct).

(** [(hn, cn)]: the states after the first [n] timesteps of [x]. *)
Fixpoint lstm_states (x : tensor3 F) (init_h init_c kernel recurrent_kernel : tensor2)
  (bias recurrent_bias : option tensor1) (n : nat) : tensor2 * tensor2 :=
  match n with
  | 0 => (init_h, init_c)
  | Datatypes.S n' =>
      lstm_step kernel recurrent_kernel bias recurrent_bias
        (lstm_states x init_h init_c kernel recurrent_kernel bias recurrent_bias n')
        (slice_t x n')
  end.

(** A sample of the uniform distribution on [0, 1). *)
Definition in_unit_interval (u : F) : Prop :=
  ltb u zero = false /\ ltb u one = true.

End WithScalar.

End textbook.

(** ** Rational arithmetic as an implementation of [Scalar]

    The arithmetic is exact; [exp], [tanh] and [sigmoid] are rational
    stand-ins (the statements never look into them), and [finfo_max] is the
    largest finite single-precision value. *)

Module reference_scalar.

Definition Qltb (a b : Q) : bool := negb (Qle_bool b a).

#[export] Instance scalar : Scalar := {|
  F := Q;
  zero := 0%Q;
  one := 1%Q;
  add := Qplus;
  sub := Qminus;
  mul := Qmult;
  div := Qdiv;
  neg := Qopp;
  exp := fun x => (1 + x * x)%Q;
  tanh := fun x => (x / (1 + x * x))%Q;
  sigmoid := fun x => ((1 + x * x) / (2 + x * x))%Q;
  ltb := Qltb;
  eqb := Qeq_bool;
  finfo_max := (340282346638528859811704183484516925440 # 1)%Q
|}.

End reference_scalar.

(** ** Concrete arrays over the rationals *)

Module reference_inputs.

Import layers reference_scalar.

(** A batch of one sequence with two timesteps and two input channels. *)
Definition x_2steps : tensor3 Q := {|
  dim0 := 1; dim1 := 2; dim2 := 2;
  at3 := fun _ t i => (Z.of_nat (1 + t + 2 * i) # 2)%Q
|}.

(** The same batch with no timestep. *)
Definition x_0steps : tensor3 Q := {|
  dim0 := 1; dim1 := 0; dim2 := 2; at3 := fun _ _ _ => 0%Q
|}.

(** [in = 2], [out = 1]. *)
Definition kernel_2x4 : tensor2 := {|
  rows := 2; cols := 4;
  at2 := fun i j => (Z.of_nat (i + j) # 3)%Q
|}.

Definition recurrent_kernel_1x4 : tensor2 := {|
  rows := 1; cols := 4;
  at2 := fun _ j => (Z.of_nat j - 1 # 2)%Q
|}.

Definition state_1x1 (v : Q) : tensor2 := {|
  rows := 1; cols := 1; at2 := fun _ _ => v
|}.

Definition bias_4 : tensor1 := {|
  len1 := 4; at1 := fun j => (Z.of_nat j # 5)%Q
|}.

(** One query, two keys, one feature. *)
Definition q_1x1x1 : tensor3 Q := {|
  dim0 := 1; dim1 := 1; dim2 := 1; at3 := fun _ _ _ => (1 # 2)%Q
|}.

Definition kv_1x2x1 : tensor3 Q := {|
  dim0 := 1; dim1 := 2; dim2 := 1;
  at3 := fun _ j _ => (Z.of_nat (j + 1) # 1)%Q
|}.

Definition mask_1x1x2 : tensor3 bool := {|
  dim0 := 1; dim1 := 1; dim2 := 2; at3 := fun _ _ j => Nat.eqb j 0
|}.

Definition x_nd : ndarray Q := {|
  shape := [2];
  item := fun i => match i with [0] => (3 # 2)%Q | [1] => (-1)%Q | _ => 0%Q end
|}.

Definition u_nd : ndarray Q := {|
  shape := [2];
  item := fun i => match i with [0] => (1 # 2)%Q | _ => 0%Q end
|}.

End reference_inputs.

(** ** Calling the sparse-array functions one after the other *)

Module sparse_keywords.

Import torch sparse_array.

(** The format whose tensors have a given layout. *)
Definition format_of_layout (l : layout) : option format :=
  match l with
  | sparse_coo => Some COO
  | sparse_csr => Some CSR
  | sparse_csc => Some CSC
  | sparse_bsc => Some BSC
  | sparse_bsr => Some BSR
  | strided | _mkldnn | jagged => None
  end.

(** The keyword-only index parameters of [native_sparse_array], lines 25-33. *)
Definition index_parameters : list string :=
  ["coo_indices"; "csr_crow_indices"; "csr_col_indices"; "csc_ccol_indices";
   "csc_row_indices"; "bsc_ccol_indices"; "bsc_row_indices";
   "bsr_crow_indices"; "bsr_col_indices"].

Section WithTorch.

Context {T : torch.API}.

(** [d.get(key)] on a dict given by its items. *)
Fixpoint dict_get (key : string) (d : list (string * Obj)) : option Obj :=
  match d with
  | [] => None
  | (k, v) :: d' => if String.eqb key k then Some v else dict_get key d'
  end.

(** The parameters of a call of [native_sparse_array] with the items of the
    dict [d] as keyword arguments, [values=v] and [dense_shape=s]: each index
    parameter gets the dict's value under its name, or its default [None]; a
    key that names no parameter is a [TypeError]. *)
Definition keywords_of (d : list (string * Obj)) (v s : Obj) : result kwargs :=
  if forallb (fun kv => existsb (String.eqb (fst kv)) index_parameters) d then
    Ok {| coo_indices := dict_get "coo_indices" d;
          csr_crow_indices := dict_get "csr_crow_indices" d;
          csr_col_indices := dict_get "csr_col_indices" d;
          csc_ccol_indices := dict_get "csc_ccol_indices" d;
          csc_row_indices := dict_get "csc_row_indices" d;
          bsc_ccol_indices := dict_get "bsc_ccol_indices" d;
          bsc_row_indices := dict_get "bsc_row_indices" d;
          bsr_crow_indices := dict_get "bsr_crow_indices" d;
          bsr_col_indices := dict_get "bsr_col_indices" d;
          kw_values := Some v;
          dense_shape := Some s |}
  else Raise (TypeError "native_sparse_array() got an unexpected keyword argument").

(** What a tensor's accessors give for the components of format [f]; a COO
    tensor is read after [coalesce]. *)
Definition own_components (x : Tensor) (f : format) : list (option Obj) :=
  match f with
  | COO => [Some (indices (coalesce x)); Some (values (coalesce x));
            Some (size (coalesce x))]
  | CSR | BSR => [Some (crow_indices x); Some (col_indices x);
                  Some (values x); Some (size x)]
  | CSC | BSC => [Some (ccol_indices x); Some (row_indices x);
                  Some (values x); Some (size x)]
  end.

(** The index arguments of format [f] alone. *)
Definition index_arguments (f : format) (kw : kwargs) : list (option Obj) :=
  match f with
  | COO => [coo_indices kw]
  | CSR => [csr_crow_indices kw; csr_col_indices kw]
  | CSC => [csc_ccol_indices kw; csc_row_indices kw]
  | BSC => [bsc_ccol_indices kw; bsc_row_indices kw]
  | BSR => [bsr_crow_indices kw; bsr_col_indices kw]
  end.

(** The answers of the six tests of [native_sparse_array], in the order of
    the [if]/[elif] chain. *)
Definition test_outcomes (H : Helpers) (data : option Tensor) (kw : kwargs)
  : list (result bool) :=
  [_is_data_not_indices_values_and_shape H data kw;
   _is_coo H kw; _is_csr H kw; _is_csc H kw; _is_bsc H kw; _is_bsr H kw].

End WithTorch.

End sparse_keywords.

(** ** Further concrete arguments *)

Module reference_more.

Import torch sparse_array reference.

(** COO components together with CSR index tensors. *)
Definition mixed_kwargs : kwargs := {|
  coo_indices := Some [0; 1]%Z;
  csr_crow_indices := Some [0; 1; 2]%Z; csr_col_indices := Some [0; 1]%Z;
  csc_ccol_indices := None; csc_row_indices := None;
  bsc_ccol_indices := None; bsc_row_indices := None;
  bsr_crow_indices := None; bsr_col_indices := None;
  kw_values := Some [1; 2]%Z; dense_shape := Some [2; 2]%Z
|}.

(** Masks for one query and two keys: every key visible, no key visible. *)
Definition mask_all_true : layers.tensor3 bool := {|
  layers.dim0 := 1; layers.dim1 := 1; layers.dim2 := 2;
  layers.at3 := fun _ _ _ => true
|}.

Definition mask_all_false : layers.tensor3 bool := {|
  layers.dim0 := 1; layers.dim1 := 1; layers.dim2 := 2;
  layers.at3 := fun _ _ _ => false
|}.


(** Another query and other keys of the shapes of
    [reference_inputs.q_1x1x1] and [reference_inputs.kv_1x2x1]. *)
Definition q_other : layers.tensor3 Q := {|
  layers.dim0 := 1; layers.dim1 := 1; layers.dim2 := 1;
  layers.at3 := fun _ _ _ => (5 # 3)%Q
|}.

Definition k_other : layers.tensor3 Q := {|
  layers.dim0 := 1; layers.dim1 := 2; layers.dim2 := 1;
  layers.at3 := fun _ j _ => (Z.of_nat j - 4 # 1)%Q
|}.

End reference_more.

(** ** Cutting a sequence in two, for calls of [lstm_update] in a row *)

Module lstm_chunks.

Import layers.

Section WithScalar.

Context {S : Scalar}.




(** Two matrices with as many columns that agree on the rows selected by
    [P]. *)
Definition agree_on (P : nat -> Prop) (a a' : tensor2) : Prop :=
  cols a = cols a' /\ forall b, P b -> forall j, at2 a b j = at2 a' b j.

End WithScalar.

End lstm_chunks.

(** ** [ivy/functional/ivy/layers.py]: [linear], lines 19-73 *)

Module linear_layer.

(** The array operations [linear] calls, each answering or raising, and the
    [shape] attribute. *)
Class ArrayOps : Type := {
  Arr : Type;
  shape_of : Arr -> list nat;
  reshape : Arr -> list nat -> result Arr;
  swapaxes : Arr -> Z -> Z -> result Arr;
  matmul : Arr -> Arr -> result Arr;
  add_arrays : Arr -> Arr -> result Arr
}.

(** Python's [l[:-2]], [l[n:-1]] (for [n >= 0]) and [l[-2:]] on a list. *)
Definition until_last_two {A : Type} (l : list A) : list A :=
  firstn (List.length l - 2) l.

Definition from_until_last {A : Type} (n : nat) (l : list A) : list A :=
  skipn n (firstn (List.length l - 1) l).

Definition last_two {A : Type} (l : list A) : list A :=
  skipn (List.length l - 2) l.

(** [a, b = l]: a list of any other length than two cannot be unpacked. *)
Definition unpack2 (l : list nat) : result (nat * nat) :=
  match l with
  | [a; b] => Ok (a, b)
  | [] => Raise (ValueError "not enough values to unpack (expected 2, got 0)")
  | [_] => Raise (ValueError "not enough values to unpack (expected 2, got 1)")
  | _ => Raise (ValueError "too many values to unpack (expected 2)")
  end.

(** [[1] * k] for a Python integer [k]: empty when [k] is not positive. *)
Definition ones (k : Z) : list nat := repeat 1 (Z.to_nat k).

(** Lines 41-45: the shapes read off [weight] and [x]. *)
Definition outer_batch_shape (weight_shape : list nat) : list nat :=
  until_last_two weight_shape.

Definition inner_batch_shape (x_shape weight_shape : list nat) : list nat :=
  from_until_last (List.length (outer_batch_shape weight_shape)) x_shape.

(** Lines 53-55: the shape [weight] is reshaped to. *)
Definition weight_reshape_shape (x_shape weight_shape : list nat)
  : result (list nat) :=
  let num_inner_batch_dims := List.length (inner_batch_shape x_shape weight_shape) in
  ('(num_out_feats, num_in_feats) <- unpack2 (last_two weight_shape) ;;
   Ok (outer_batch_shape weight_shape
       ++ ones (Z.max (Z.of_nat num_inner_batch_dims - 1) 0)
       ++ [num_out_feats; num_in_feats]))%res.

(** Line 66: the shape [bias] is reshaped to. *)
Definition bias_reshape_shape (x_shape weight_shape : list nat)
  : result (list nat) :=
  let num_inner_batch_dims := List.length (inner_batch_shape x_shape weight_shape) in
  ('(num_out_feats, num_in_feats) <- unpack2 (last_two weight_shape) ;;
   Ok (outer_batch_shape weight_shape
       ++ ones (Z.of_nat num_inner_batch_dims)
       ++ [num_out_feats]))%res.

Section WithOps.

Context {O : ArrayOps}.

Definition linear (x weight : Arr) (bias : option Arr) : result Arr :=
  (target <- weight_reshape_shape (shape_of x) (shape_of weight) ;;
   w <- reshape weight target ;;
   wT <- swapaxes w (-1) (-2) ;;
   y <- matmul x wT ;;
   match bias with
   | Some bias =>
       bias_target <- bias_reshape_shape (shape_of x) (shape_of weight) ;;
       bias_broadcast <- reshape bias bias_target ;;
       add_arrays y bias_broadcast
   | None => Ok y
   end)%res.

End WithOps.

(** The number of entries of an array of a given shape. *)
Definition size_of (shape : list nat) : nat := fold_right Nat.mul 1 shape.

(** An implementation on shapes alone: an array is its shape. *)
Definition swap_last_two (l : list nat) : list nat :=
  match rev l with
  | a :: b :: r => rev r ++ [a; b]
  | _ => l
  end.

#[export] Instance shape_ops : ArrayOps := {|
  Arr := list nat;
  shape_of := fun a => a;
  reshape := fun a target =>
    if Nat.eqb (size_of a) (size_of target) then Ok target
    else Raise (ValueError "cannot reshape array");
  swapaxes := fun a _ _ => Ok (swap_last_two a);
  matmul := fun a b =>
    match rev a, rev b with
    | k :: ra, n :: k' :: _ =>
        if Nat.eqb k k' then Ok (rev ra ++ [n])
        else Raise (ValueError "matmul: shapes do not match")
    | _, _ => Raise (ValueError "matmul: shapes do not match")
    end;
  add_arrays := fun a _ => Ok a
|}.

End linear_layer.

(** ** The component check of a format, as the helpers give it *)

Module sparse_checks.

Import torch sparse_array.

Section WithTorch.

Context {T : torch.API}.

(** What [_verify_coo_components], [_verify_csr_components], ... of the
    imported helpers answer on the components of format [f]: the function
    of the helpers named in lines 68, 87, 112, 137 and 157 applied to the
    arguments given there. *)
Definition component_check (H : Helpers) (f : format) (kw : kwargs) : result unit :=
  match f with
  | COO => _verify_coo_components H (coo_indices kw) (kw_values kw) (dense_shape kw)
  | CSR => _verify_csr_components H (csr_crow_indices kw) (csr_col_indices kw)
             (kw_values kw) (dense_shape kw)
  | CSC => _verify_csc_components H (csc_ccol_indices kw) (csc_row_indices kw)
             (kw_values kw) (dense_shape kw)
  | BSC => _verify_bsc_components H (bsc_ccol_indices kw) (bsc_row_indices kw)
             (kw_values kw) (dense_shape kw)
  | BSR => _verify_bsr_components H (bsr_crow_indices kw) (bsr_col_indices kw)
             (kw_values kw) (dense_shape kw)
  end.

End WithTorch.

End sparse_checks.

(** * Properties *)

(** ** The torch sparse-array backend *)

Section SparseArrayFacts.

Import torch sparse_array.

Context {T : torch.API}.
Variable H : Helpers.

Ltac unfold_run :=
  unfold run, native_sparse_array, verify_outcome, verify, construct,
    bind, lift, call, ret in *; cbn [fst snd app] in *.

(** What a call does once the keyword arguments identify a format. *)
Lemma native_sparse_array_identified data kw f :
  identifies H data kw f ->
  run (native_sparse_array H data kw) =
    match verify_outcome H f kw with
    | Raise e => ([Verify f (components_of f kw)], Raise e)
    | Ok _ =>
        if returns_native f then
          ([Verify f (components_of f kw); Construct f (components_of f kw)],
           rbind (native_constructor f kw) (fun t => Ok (Some t)))
        else ([Verify f (components_of f kw)], Ok None)
    end.
Proof.
  unfold identifies. intros [Hd Hf].
  destruct f; unfold_run; rewrite Hd.
  - rewrite Hf.
    destruct (_verify_coo_components H _ _ _); cbn; [|reflexivity].
    destruct (sparse_coo_tensor _ _ _); reflexivity.
  - destruct Hf as (-> & ->).
    destruct (_verify_csr_components H _ _ _ _); cbn; [|reflexivity].
    destruct (sparse_csr_tensor _ _ _ _); reflexivity.
  - destruct Hf as (-> & -> & ->).
    destruct (_verify_csc_components H _ _ _ _); cbn; [|reflexivity].
    destruct (sparse_csc_tensor _ _ _ _); reflexivity.
  - destruct Hf as (-> & -> & -> & ->).
    destruct (_verify_bsc_components H _ _ _ _); reflexivity.
  - destruct Hf as (-> & -> & -> & -> & ->).
    destruct (_verify_bsr_components H _ _ _ _); reflexivity.
Qed.


(** C1, at the inputs where the code departs from it: when the keyword
    arguments identify the BSC or the BSR format and the component check
    passes, [native_sparse_array] calls no constructor and returns [None]. *)
Theorem native_sparse_array_block_formats_return_None data kw f :
  f = BSC \/ f = BSR ->
  identifies H data kw f ->
  verify_outcome H f kw = Ok tt ->
  run (native_sparse_array H data kw) =
    ([Verify f (components_of f kw)], Ok None).
Proof.
  intros Hf Hi Hv.
  rewrite (native_sparse_array_identified Hi), Hv.
  destruct Hf as [-> | ->]; reflexivity.
Qed.

(** No tensor is constructed unless the keyword arguments identify a
    format with a constructor call, whose check has passed. *)
Lemma construct_only_after_verify data kw pre f args post :
  fst (run (native_sparse_array H data kw)) = pre ++ Construct f args :: post ->
  pre = [Verify f args] /\ post = [] /\ args = components_of f kw /\
  identifies H data kw f /\ verify_outcome H f kw = Ok tt.
Proof.
  assert (Hnil : forall (l : list event), [] = pre ++ Construct f args :: l -> False)
    by (intros l E; destruct pre; discriminate E).
  assert (Hone : forall g a,
             [Verify g a] = pre ++ Construct f args :: post -> False).
  { intros g a E. destruct pre as [|? [|? ?]]; cbn in E; inversion E. }
  assert (Htwo : forall g a,
             [Verify g a; Construct g a] = pre ++ Construct f args :: post ->
             pre = [Verify f a] /\ post = [] /\ args = a /\ g = f).
  { intros g a E. destruct pre as [|? [|? [|? ?]]]; cbn in E;
      inversion E; subst; auto. }
  unfold identifies. unfold_run.
  repeat first
    [ progress cbn
    | match goal with
      | |- context [match ?x with _ => _ end] =>
          tryif constr_eq x f then fail else destruct x eqn:?
      end ];
    intros E;
    try (exfalso; eapply Hnil; exact E);
    try (exfalso; eapply Hone; exact E);
    apply Htwo in E; destruct E as (-> & -> & -> & <-);
    repeat match goal with u : unit |- _ => destruct u end;
    cbn; auto 10.
Qed.

(** The outcome the log-keeping [verify] passes on is the helper's. *)
Lemma verify_outcome_is_component_check f kw :
  verify_outcome H f kw = sparse_checks.component_check H f kw.
Proof. destruct f; reflexivity. Qed.

(** C6: when the keyword arguments identify a format, the [_verify_*]
    function of that format is called first, on that format's components.
    When it raises, the call ends with its exception and no native
    constructor is called; when it passes, the constructor (for COO, CSR and
    CSC) is called next on the same components and its outcome is the
    call's.  Whenever a constructor is called at all, that check has run
    before it, on the same components, and has passed.  When [data] is what
    was passed, no check and no constructor runs: the result is [data]
    itself if [is_native_sparse_array] accepts it, and the exception with
    message "not a sparse array" otherwise. *)
Theorem native_sparse_array_checks_then_constructs data kw :
  (forall f, identifies H data kw f ->
     match sparse_checks.component_check H f kw with
     | Raise e =>
         run (native_sparse_array H data kw) =
           ([Verify f (components_of f kw)], Raise e)
     | Ok _ =>
         run (native_sparse_array H data kw) =
           if returns_native f then
             ([Verify f (components_of f kw); Construct f (components_of f kw)],
              rbind (native_constructor f kw) (fun t => Ok (Some t)))
           else ([Verify f (components_of f kw)], Ok None)
     end) /\
  (forall pre f args post,
     fst (run (native_sparse_array H data kw)) =
       pre ++ Construct f args :: post ->
     pre = [Verify f args] /\ post = [] /\ args = components_of f kw /\
     identifies H data kw f /\
     sparse_checks.component_check H f kw = Ok tt) /\
  (forall x, data = Some x ->
     _is_data_not_indices_values_and_shape H data kw = Ok true ->
     run (native_sparse_array H data kw) =
       ([], if is_native_sparse_array x then Ok (Some x)
            else Raise (IvyException "not a sparse array"))).
Proof.
  split; [|split].
  - intros f Hi. pose proof (native_sparse_array_identified Hi) as E.
    rewrite (verify_outcome_is_component_check f kw) in E.
    destruct (sparse_checks.component_check H f kw) as [[]|e]; exact E.
  - intros pre f args post E.
    destruct (construct_only_after_verify _ _ _ _ _ _ E) as (? & ? & ? & ? & Hv).
    rewrite (verify_outcome_is_component_check f kw) in Hv. auto.
  - intros x -> Hd. unfold_run. rewrite Hd.
    cbn [ivy_is_native_sparse_array rbind].
    destruct (is_native_sparse_array x); reflexivity.
Qed.

(** C7: the decomposition raises the [IvyException] with message "not a
    sparse COO/CSR/CSC/BSC/BSR Tensor" exactly when the layout is none of
    the five sparse ones; for each of those it returns the dict of the
    layout's index tensors, the values and the size, read off the
    coalesced tensor in the COO case. *)
Theorem to_indices_values_and_shape_by_layout (x : Tensor) :
  native_sparse_array_to_indices_values_and_shape x =
    match layout_of x with
    | sparse_coo =>
        Ok ([("coo_indices", indices (coalesce x))],
            values (coalesce x), size (coalesce x))
    | sparse_csr =>
        Ok ([("csr_crow_indices", crow_indices x);
             ("csr_col_indices", col_indices x)], values x, size x)
    | sparse_csc =>
        Ok ([("csc_ccol_indices", ccol_indices x);
             ("csc_row_indices", row_indices x)], values x, size x)
    | sparse_bsc =>
        Ok ([("bsc_ccol_indices", ccol_indices x);
             ("bsc_row_indices", row_indices x)], values x, size x)
    | sparse_bsr =>
        Ok ([("bsr_crow_indices", crow_indices x);
             ("bsr_col_indices", col_indices x)], values x, size x)
    | strided | _mkldnn | jagged =>
        Raise (IvyException "not a sparse COO/CSR/CSC/BSC/BSR Tensor")
    end /\
  ((exists e, native_sparse_array_to_indices_values_and_shape x = Raise e) <->
   ~ In (layout_of x)
       [sparse_coo; sparse_csr; sparse_csc; sparse_bsc; sparse_bsr]).
Proof.
  unfold native_sparse_array_to_indices_values_and_shape.
  destruct (layout_of x); cbn; (split; [reflexivity|]);
    (split;
     [ intros [e He]; try discriminate He; intuition discriminate
     | intros Hn; try (exfalso; apply Hn; tauto); eauto ]).
Qed.


End SparseArrayFacts.

(** On the reference implementation: the BSC components of a 2 x 2 matrix. *)
Lemma native_sparse_array_block_formats_return_None_witness :
  sparse_array.run
    (sparse_array.native_sparse_array reference.helpers None reference.bsc_kwargs) =
    ([sparse_array.Verify (T := reference.api) sparse_array.BSC
        [Some [0; 1; 2]%Z; Some [0; 1]%Z; Some [1; 2]%Z; Some [2; 2]%Z]],
     Ok None).
Proof.
  apply (native_sparse_array_block_formats_return_None
           (H := reference.helpers) (data := None)
           (kw := reference.bsc_kwargs) (f := sparse_array.BSC)).
  - left; reflexivity.
  - vm_compute; auto.
  - reflexivity.
Defined.

(** The CSR components give the native CSR tensor, after the check. *)
Example native_sparse_array_csr :
  sparse_array.run
    (sparse_array.native_sparse_array reference.helpers None reference.csr_kwargs) =
    ([sparse_array.Verify (T := reference.api) sparse_array.CSR
        [Some [0; 1; 2]%Z; Some [0; 1]%Z; Some [1; 2]%Z; Some [2; 2]%Z];
      sparse_array.Construct (T := reference.api) sparse_array.CSR
        [Some [0; 1; 2]%Z; Some [0; 1]%Z; Some [1; 2]%Z; Some [2; 2]%Z]],
     Ok (Some (reference.a_tensor torch.sparse_csr))).
Proof. reflexivity. Qed.

(** The same components given as BSR components give [None]. *)
Example native_sparse_array_bsr :
  sparse_array.run
    (sparse_array.native_sparse_array reference.helpers None reference.bsr_kwargs) =
    ([sparse_array.Verify (T := reference.api) sparse_array.BSR
        [Some [0; 1; 2]%Z; Some [0; 1]%Z; Some [1; 2]%Z; Some [2; 2]%Z]],
     Ok None).
Proof. reflexivity. Qed.

(** A CSR tensor passed as [data] comes back; a BSR tensor is refused. *)
Example native_sparse_array_data :
  sparse_array.run
    (sparse_array.native_sparse_array reference.helpers
       (Some (reference.a_tensor torch.sparse_csr)) reference.no_kwargs) =
    ([], Ok (Some (reference.a_tensor torch.sparse_csr))) /\
  sparse_array.run
    (sparse_array.native_sparse_array reference.helpers
       (Some (reference.a_tensor torch.sparse_bsr)) reference.no_kwargs) =
    ([], Raise (IvyException "not a sparse array")).
Proof. split; reflexivity. Qed.


(** ** The JAX backend's reductions *)

Section JaxUtilityFacts.

Context {J : jnp.API}.

(** C4: [all] and [any] return what [jnp.all] and [jnp.any] return on the
    same array, axis and [keepdims], be it an array or an exception; with the
    optional parameters left out, the native call gets [None] and [False]. *)
Theorem jax_all_any_are_the_native_calls
  (x : jnp.JaxArray) (axis : option jnp.axis_spec) (keepdims : bool) :
  jax_utility.all x axis keepdims = jnp.all x axis keepdims /\
  jax_utility.any x axis keepdims = jnp.any x axis keepdims /\
  jax_utility.all_default x = jnp.all x None false /\
  jax_utility.any_default x = jnp.any x None false.
Proof.
  unfold jax_utility.all_default, jax_utility.any_default,
    jax_utility.all, jax_utility.any.
  repeat split.
  - destruct (jnp.all x axis keepdims); reflexivity.
  - destruct (jnp.any x axis keepdims); reflexivity.
  - destruct (jnp.all x None false); reflexivity.
  - destruct (jnp.any x None false); reflexivity.
Qed.

End JaxUtilityFacts.

(** ** The dispatch of the convolutions *)

Section DispatchFacts.

Import dispatch.

Variable Array : Type.
Variable cur : Array -> result (Framework Array).

(** C5: each convolution of the unified API returns what the function of
    the same name of the module selected by [current_framework] for [x]
    returns on the same arguments; when no module is selected, the
    exception of the selection is all that happens. *)
Theorem convolutions_dispatch_to_current_framework
  (x filters : Array) (strides padding : pyval) (output_shape : option pyval)
  (data_format : string) (dilations : pyval) :
  (forall fw, cur x = Ok fw ->
     conv1d cur x filters strides padding data_format dilations =
       fw_conv1d fw x filters strides padding data_format dilations /\
     conv1d_transpose cur x filters strides padding output_shape data_format dilations =
       fw_conv1d_transpose fw x filters strides padding output_shape data_format
         dilations /\
     conv2d cur x filters strides padding data_format dilations =
       fw_conv2d fw x filters strides padding data_format dilations /\
     conv2d_transpose cur x filters strides padding output_shape data_format dilations =
       fw_conv2d_transpose fw x filters strides padding output_shape data_format
         dilations /\
     depthwise_conv2d cur x filters strides padding data_format dilations =
       fw_depthwise_conv2d fw x filters strides padding data_format dilations /\
     conv3d cur x filters strides padding data_format dilations =
       fw_conv3d fw x filters strides padding data_format dilations /\
     conv3d_transpose cur x filters strides padding output_shape data_format dilations =
       fw_conv3d_transpose fw x filters strides padding output_shape data_format
         dilations) /\
  (forall e, cur x = Raise e ->
     conv1d cur x filters strides padding data_format dilations = Raise e /\
     conv1d_transpose cur x filters strides padding output_shape data_format dilations =
       Raise e /\
     conv2d cur x filters strides padding data_format dilations = Raise e /\
     conv2d_transpose cur x filters strides padding output_shape data_format dilations =
       Raise e /\
     depthwise_conv2d cur x filters strides padding data_format dilations = Raise e /\
     conv3d cur x filters strides padding data_format dilations = Raise e /\
     conv3d_transpose cur x filters strides padding output_shape data_format dilations =
       Raise e).
Proof.
  unfold conv1d, conv1d_transpose, conv2d, conv2d_transpose, depthwise_conv2d,
    conv3d, conv3d_transpose.
  split; intros r Hr; rewrite Hr; cbn [rbind]; repeat split.
Qed.

End DispatchFacts.

(** ** The composite layers *)

Section LayersFacts.

Import layers textbook.

Context {S : Scalar}.

Lemma sum_n_ext (n : nat) (f g : nat -> F) :
  (forall i, f i = g i) -> sum_n n f = sum_n n g.
Proof.
  intros E. unfold sum_n. f_equal. apply map_ext. intros i. apply E.
Qed.

#[local] Arguments sum_n {S} n f : simpl never.

(** *** The LSTM loop *)

Lemma zip4_map {A B : Type} (f1 f2 f3 f4 : A -> B) (l : list A) :
  zip4 (map f1 l) (map f2 l) (map f3 l) (map f4 l) =
  map (fun t => (f1 t, f2 t, f3 t, f4 t)) l.
Proof.
  unfold zip4. induction l as [|a l IH]; cbn; [reflexivity|].
  f_equal. exact IH.
Qed.

Lemma lstm_loop_app Wh rb st l1 l2 :
  lstm_loop Wh rb st (l1 ++ l2) =
  rbind (lstm_loop Wh rb st l1) (fun st' => lstm_loop Wh rb st' l2).
Proof.
  revert st. induction l1 as [|a l1 IH]; intros st; cbn; [reflexivity|].
  destruct (lstm_body Wh rb st a) as [st'|e]; cbn; [apply IH | reflexivity].
Qed.

Lemma mod4_of_shape (n out : nat) : n = 4 * out -> Nat.eqb (n mod 4) 0 = true.
Proof.
  intros ->. apply Nat.eqb_eq. rewrite Nat.mul_comm. apply Nat.Div0.mod_mul.
Qed.


(** The loop runs over one element per timestep of [x]. *)
Lemma lstm_inputs_by_timestep x kernel bias out :
  cols kernel = 4 * out ->
  lstm_inputs x kernel bias = Ok (map (gate_slices x kernel bias) (seq 0 (dim1 x))).
Proof.
  intros Hk. unfold lstm_inputs, split4_3.
  cbn [dim2 reshape_batch cols add_bias matmul].
  rewrite (mod4_of_shape _ Hk). cbn [rbind].
  unfold unstack. cbn [dim1 part3 reshape_batch].
  rewrite zip4_map. reflexivity.
Qed.

Lemma flat_index (b t n : nat) :
  t < n -> (b * n + t) / n = b /\ (b * n + t) mod n = t.
Proof.
  intros Ht. split.
  - rewrite Nat.div_add_l by lia. rewrite Nat.div_small by lia. lia.
  - rewrite Nat.add_comm, Nat.Div0.mod_add. apply Nat.mod_small. exact Ht.
Qed.

(** One run of the loop body is one step of the recurrence. *)
Lemma lstm_body_is_step x kernel Wh bias rb out h c hs h' c' t :
  cols kernel = 4 * out ->
  cols Wh = 4 * out ->
  t < dim1 x ->
  same2 h h' -> same2 c c' ->
  exists h1 c1,
    lstm_body Wh rb (h, c, hs) (gate_slices x kernel bias t) =
      Ok (h1, c1, hs ++ [expand_dims h1]) /\
    same2 h1 (fst (lstm_step kernel Wh bias rb (h', c') (slice_t x t))) /\
    same2 c1 (snd (lstm_step kernel Wh bias rb (h', c') (slice_t x t))).
Proof.
  intros Hk Hw Ht (Hh1 & Hh2 & Hh3) (Hc1 & Hc2 & Hc3).
  unfold lstm_body, gate_slices, split4_2.
  cbn [cols add_bias matmul].
  rewrite (mod4_of_shape _ Hw). cbn [rbind].
  eexists; eexists; split; [reflexivity|].
  assert (Hpre : forall p r j,
    add (at2 (slice_t (part3 (input_projection x kernel bias) p) t) r j)
        (at2 (part2 (add_bias (matmul h Wh) rb) p) r j) =
    at2 (pre_activation kernel Wh bias rb p (slice_t x t) h') r j).
  { intros p r j. unfold pre_activation, input_projection, gate_weights, gate_bias.
    cbn. destruct (flat_index r Ht) as [-> ->].
    f_equal.
    - destruct bias; reflexivity.
    - rewrite Hh2. f_equal.
      + apply sum_n_ext. intros i. rewrite Hh3. reflexivity.
      + destruct rb; reflexivity. }
  assert (Hct : forall r j,
    at2 (map2 add
           (map2 mul
              (map1 sigmoid
                 (map2 add (slice_t (part3 (input_projection x kernel bias) 1) t)
                    (part2 (add_bias (matmul h Wh) rb) 1))) c)
           (map2 mul
              (map1 sigmoid
                 (map2 add (slice_t (part3 (input_projection x kernel bias) 0) t)
                    (part2 (add_bias (matmul h Wh) rb) 0)))
              (map1 tanh
                 (map2 add (slice_t (part3 (input_projection x kernel bias) 2) t)
                    (part2 (add_bias (matmul h Wh) rb) 2))))) r j =
    at2 (snd (lstm_step kernel Wh bias rb (h', c') (slice_t x t))) r j).
  { intros r j. cbn [lstm_step snd map2 map1 at2].
    rewrite <- !Hpre, Hc3. reflexivity. }
  split; [|split; [reflexivity | split; [reflexivity | exact Hct]]].
  split; [reflexivity | split; [reflexivity|]].
  intros r j. cbn [lstm_step fst map2 map1 at2]. cbn [at2] in Hct.
  rewrite <- !Hpre, Hc3. reflexivity.
Qed.

(** After [n] runs of the body the loop holds the states of the recurrence
    after [n] timesteps, and has appended one hidden state per run. *)
Lemma lstm_loop_prefix x init_h init_c kernel Wh bias rb out n :
  cols kernel = 4 * out ->
  cols Wh = 4 * out ->
  n <= dim1 x ->
  exists h c hl,
    lstm_loop Wh rb (init_h, init_c, [])
      (map (gate_slices x kernel bias) (seq 0 n)) =
      Ok (h, c, map expand_dims hl) /\
    List.length hl = n /\
    same2 h (fst (lstm_states x init_h init_c kernel Wh bias rb n)) /\
    same2 c (snd (lstm_states x init_h init_c kernel Wh bias rb n)) /\
    forall t, t < n ->
      same2 (nth t hl init_h)
            (fst (lstm_states x init_h init_c kernel Wh bias rb (Datatypes.S t))).
Proof.
  intros Hk Hw. induction n as [|n IH]; intros Hn.
  - exists init_h, init_c, []. cbn.
    repeat split; try lia.
  - destruct IH as (h & c & hl & Hloop & Hlen & Hh & Hc & Hnth); [lia|].
    rewrite seq_S, map_app, lstm_loop_app, Hloop. cbn [rbind map plus lstm_loop].
    destruct (@lstm_body_is_step x kernel Wh bias rb out h c
                (map expand_dims hl) _ _ n Hk Hw Hn Hh Hc)
      as (h1 & c1 & Hbody & Hh1 & Hc1).
    rewrite Hbody. cbn [rbind].
    exists h1, c1, (hl ++ [h1]).
    rewrite map_app. cbn [map].
    assert (Hstep :
      lstm_states x init_h init_c kernel Wh bias rb (Datatypes.S n) =
      lstm_step kernel Wh bias rb
        (fst (lstm_states x init_h init_c kernel Wh bias rb n),
         snd (lstm_states x init_h init_c kernel Wh bias rb n)) (slice_t x n)).
    { cbn [lstm_states]. rewrite <- surjective_pairing. reflexivity. }
    split; [reflexivity|].
    split; [rewrite length_app; cbn; lia|].
    split; [rewrite Hstep; exact Hh1|].
    split; [rewrite Hstep; exact Hc1|].
    intros t Ht. destruct (Nat.eq_dec t n) as [->|Hne].
    + rewrite app_nth2 by lia. rewrite Hlen, Nat.sub_diag. cbn [nth].
      rewrite Hstep. exact Hh1.
    + rewrite app_nth1 by lia. apply Hnth. lia.
Qed.


Lemma concat_dim1_expand_dims (hl : list tensor2) :
  fold_right (fun q n => dim1 q + n) 0 (map expand_dims hl) = List.length hl.
Proof.
  induction hl as [|p hl IH]; cbn; [reflexivity|]. rewrite IH. reflexivity.
Qed.


(** With [t >= 1] timesteps the list the loop runs over has [t] elements,
    the list of hidden states has [t] entries after the last run of the
    body, the first returned array has [t] entries along its time axis, and
    the second returned value is the cell state that the last run of the
    body produced. *)
Lemma lstm_loop_runs_once_per_timestep
  (x : tensor3 F) (init_h init_c kernel recurrent_kernel : tensor2)
  (bias recurrent_bias : option tensor1) (out : nat) :
  cols kernel = 4 * out ->
  cols recurrent_kernel = 4 * out ->
  0 < dim1 x ->
  exists slices front last st h c hts hs,
    lstm_inputs x kernel bias = Ok slices /\
    List.length slices = dim1 x /\
    slices = front ++ [last] /\
    lstm_loop recurrent_kernel recurrent_bias (init_h, init_c, []) front =
      Ok st /\
    lstm_body recurrent_kernel recurrent_bias st last = Ok (h, c, hts) /\
    List.length hts = dim1 x /\
    concat hts = Ok hs /\
    dim1 hs = dim1 x /\
    lstm_update x init_h init_c kernel recurrent_kernel bias recurrent_bias =
      Ok (hs, c).
Proof.
  intros Hk Hw Hpos.
  assert (Hm : dim1 x = Datatypes.S (dim1 x - 1)) by lia.
  remember (dim1 x - 1) as m eqn:Em. clear Em.
  destruct (@lstm_loop_prefix x init_h init_c kernel recurrent_kernel bias
              recurrent_bias out m Hk Hw ltac:(lia))
    as (h0 & c0 & hl & Hloop & Hlen & Hh & Hc & _).
  destruct (@lstm_body_is_step x kernel recurrent_kernel bias recurrent_bias
              out h0 c0 (map expand_dims hl) _ _ m Hk Hw ltac:(lia) Hh Hc)
    as (h1 & c1 & Hbody & _ & _).
  assert (Hcat : map expand_dims hl ++ [expand_dims h1] =
                 map expand_dims (hl ++ [h1]))
    by (rewrite map_app; reflexivity).
  assert (Hlen1 : List.length (hl ++ [h1]) = Datatypes.S m)
    by (rewrite length_app; cbn; lia).
  destruct (hl ++ [h1]) as [|p l] eqn:E; [discriminate Hlen1|].
  exists (map (gate_slices x kernel bias) (seq 0 (dim1 x))),
    (map (gate_slices x kernel bias) (seq 0 m)),
    (gate_slices x kernel bias m), (h0, c0, map expand_dims hl), h1, c1,
    (map expand_dims hl ++ [expand_dims h1]).
  eexists.
  split; [apply (@lstm_inputs_by_timestep x kernel bias out Hk)|].
  split; [rewrite length_map, length_seq; reflexivity|].
  split; [rewrite Hm, seq_S, map_app; reflexivity|].
  split; [exact Hloop|].
  split; [exact Hbody|].
  split; [rewrite Hcat, length_map, Hlen1, Hm; reflexivity|].
  split; [rewrite Hcat; cbn [map concat]; reflexivity|].
  split.
  - cbn [dim1]. rewrite Hm, <- Hlen1.
    apply (concat_dim1_expand_dims (p :: l)).
  - unfold lstm_update.
    rewrite (@lstm_inputs_by_timestep x kernel bias out Hk). cbn [rbind].
    rewrite Hm at 1. rewrite seq_S, map_app, lstm_loop_app, Hloop.
    cbn [rbind map plus lstm_loop]. rewrite Hbody. cbn [rbind].
    rewrite Hcat. cbn [map concat rbind]. reflexivity.
Qed.

(** The open dimension of a reshape to [k] known entries per slot. *)
Lemma infer_dimension_mul (n k : nat) :
  0 < k -> lstm_reshape.infer_dimension (n * k) k = Ok n.
Proof.
  intros Hk. unfold lstm_reshape.infer_dimension.
  destruct (Nat.eqb_spec k 0) as [E|_]; [lia|].
  rewrite Nat.Div0.mod_mul, Nat.div_mul by lia. reflexivity.
Qed.

(** On an array with no empty axis the reshapes pass, and the projections
    are those of [layers.lstm_inputs]. *)
Lemma lstm_inputs_nonempty (x : tensor3 F) (kernel : tensor2)
  (bias : option tensor1) :
  0 < dim0 x -> 0 < dim1 x -> 0 < dim2 x ->
  lstm_reshape.lstm_inputs x kernel bias = lstm_inputs x kernel bias.
Proof.
  intros Hb Ht Hi.
  unfold lstm_reshape.lstm_inputs, lstm_reshape.reshape_flat.
  rewrite (infer_dimension_mul (dim0 x * dim1 x) Hi). cbn [rbind].
  unfold lstm_reshape.reshape_batch. cbn [rows cols add_bias matmul].
  rewrite (Nat.mul_comm (dim0 x * dim1 x) (cols kernel)).
  rewrite (@infer_dimension_mul (cols kernel) (dim0 x * dim1 x)) by nia.
  reflexivity.
Qed.

(** With an empty axis one of the two reshapes refuses. *)
Lemma lstm_inputs_empty (x : tensor3 F) (kernel : tensor2)
  (bias : option tensor1) :
  dim0 x = 0 \/ dim1 x = 0 \/ dim2 x = 0 ->
  lstm_reshape.lstm_inputs x kernel bias =
    Raise (lstm_reshape.reshape_error 0).
Proof.
  intros He.
  unfold lstm_reshape.lstm_inputs, lstm_reshape.reshape_flat.
  destruct (Nat.eq_dec (dim2 x) 0) as [E|Hi].
  - rewrite E, Nat.mul_0_r. reflexivity.
  - assert (Hz : dim0 x * dim1 x = 0) by nia.
    rewrite (infer_dimension_mul (dim0 x * dim1 x)) by lia. cbn [rbind].
    unfold lstm_reshape.reshape_batch. cbn [rows cols add_bias matmul].
    rewrite Hz. reflexivity.
Qed.

(** C10, as the code has it: on an input [x : [batch, t, in]] with no empty
    axis, the loop runs over one element per timestep of [x]: the list of
    hidden states has [t] entries after the last run of the body, the first
    returned array has [t] entries along its time axis, and the second
    returned value is the cell state that the last run of the body
    produced.  With [t = 0] (as with an empty batch or no input channel) the
    call ends before the loop, in the exception of a reshape: for [in > 0]
    the reshape of line 547 passes and the one of lines 551-554, to
    [[batch, 0, -1]], refuses; no list is concatenated. *)
Theorem lstm_update_runs_once_per_timestep
  (x : tensor3 F) (init_h init_c kernel recurrent_kernel : tensor2)
  (bias recurrent_bias : option tensor1) (out : nat) :
  cols kernel = 4 * out ->
  cols recurrent_kernel = 4 * out ->
  (dim0 x = 0 \/ dim1 x = 0 \/ dim2 x = 0 ->
     lstm_reshape.lstm_inputs x kernel bias =
       Raise (lstm_reshape.reshape_error 0) /\
     lstm_reshape.lstm_update x init_h init_c kernel recurrent_kernel bias
       recurrent_bias = Raise (lstm_reshape.reshape_error 0)) /\
  (dim1 x = 0 -> 0 < dim2 x ->
     exists x_flat,
       lstm_reshape.reshape_flat x = Ok x_flat /\
       rows x_flat = 0 /\
       lstm_reshape.reshape_batch (add_bias (matmul x_flat kernel) bias)
         (dim0 x) (dim1 x) = Raise (lstm_reshape.reshape_error 0)) /\
  (0 < dim0 x -> 0 < dim1 x -> 0 < dim2 x ->
     exists slices front last st h c hts hs,
       lstm_reshape.lstm_inputs x kernel bias = Ok slices /\
       List.length slices = dim1 x /\
       slices = front ++ [last] /\
       lstm_loop recurrent_kernel recurrent_bias (init_h, init_c, []) front =
         Ok st /\
       lstm_body recurrent_kernel recurrent_bias st last = Ok (h, c, hts) /\
       List.length hts = dim1 x /\
       concat hts = Ok hs /\
       dim1 hs = dim1 x /\
       lstm_reshape.lstm_update x init_h init_c kernel recurrent_kernel bias
         recurrent_bias = Ok (hs, c)).
Proof.
  intros Hk Hw. split; [|split].
  - intros He. pose proof (lstm_inputs_empty x kernel bias He) as E.
    split; [exact E|]. unfold lstm_reshape.lstm_update. rewrite E. reflexivity.
  - intros Ht Hi. unfold lstm_reshape.reshape_flat.
    rewrite (infer_dimension_mul (dim0 x * dim1 x) Hi). cbn [rbind].
    eexists. split; [reflexivity|]. cbn [rows].
    split; [nia|].
    unfold lstm_reshape.reshape_batch. cbn [rows cols add_bias matmul].
    rewrite Ht, Nat.mul_0_r. reflexivity.
  - intros Hb Ht Hi.
    destruct (@lstm_loop_runs_once_per_timestep x init_h init_c kernel
                recurrent_kernel bias recurrent_bias out Hk Hw Ht)
      as (slices & front & last & st & h & c & hts & hs &
          Hin & Hlen & Hsp & Hloop & Hbody & Hl & Hcat & Hd & Hup).
    exists slices, front, last, st, h, c, hts, hs.
    rewrite (lstm_inputs_nonempty x kernel bias Hb Ht Hi).
    repeat (split; [assumption|]).
    unfold lstm_reshape.lstm_update.
    rewrite (lstm_inputs_nonempty x kernel bias Hb Ht Hi).
    exact Hup.
Qed.

Context {L : ScalarLaws S}.

(** C9: with [prob = 0] and [scale = True], whatever the draw in [0, 1),
    [dropout] returns an array with the shape and the entries of [x]; with
    [prob = 1] and [scale = True] the scaling factor [1 / (1 - prob)] is a
    division by zero. *)
Theorem dropout_zero_is_identity_and_one_divides_by_zero
  (x u : ndarray F) :
  (forall i, in_unit_interval (item u i)) ->
  (exists r, dropout x zero true u = Ok r /\ same_nd r x) /\
  dropout x one true u = Raise (ZeroDivisionError "division by zero").
Proof.
  intros Hu. unfold dropout, py_div. split.
  - rewrite sub_one_zero, eqb_one_zero, div_one_one. cbn [rbind].
    eexists; split; [reflexivity|].
    split; [reflexivity|]. intros i. cbn.
    destruct (Hu i) as [-> _]. apply mul_one_r.
  - rewrite sub_one_one, eqb_zero_zero. reflexivity.
Qed.

(** C2: [scaled_dot_product_attention] has the shape and the entries of
    softmax(scale * q.kT, last axis).v; with a mask, those of the same
    formula in which every similarity entry whose mask entry is false is the
    most negative representable value before the softmax. *)
Theorem scaled_dot_product_attention_is_textbook
  (q k v : tensor3 F) (scale : F) (mask : option (tensor3 bool)) :
  same3 (scaled_dot_product_attention q k v scale mask)
        (attention q k v scale mask).
Proof.
  unfold same3, scaled_dot_product_attention, attention.
  destruct mask as [m|]; cbn; repeat split; intros n i j;
    apply sum_n_ext; intros l; f_equal; unfold most_negative.
  - f_equal.
    + f_equal. destruct (at3 m n i l); cbn;
        [apply mul_comm | apply neg_one_mul].
    + apply sum_n_ext. intros j'. f_equal. destruct (at3 m n i j'); cbn;
        [apply mul_comm | apply neg_one_mul].
  - f_equal.
    + f_equal. apply mul_comm.
    + apply sum_n_ext. intros j'. f_equal. apply mul_comm.
Qed.

End LayersFacts.

(** ** The statements at concrete inputs, over the rationals *)

Import layers textbook reference_scalar reference_inputs.

#[export] Instance reference_scalar_laws : ScalarLaws reference_scalar.scalar.
Proof.
  constructor; cbn; try reflexivity.
  - intros [a1 a2] [b1 b2]. unfold Qmult; cbn. f_equal; [lia | apply Pos.mul_comm].
  - intros [a1 a2]. unfold Qmult; cbn. f_equal; [lia | apply Pos.mul_1_r].
Qed.

Lemma scaled_dot_product_attention_is_textbook_witness :
  same3 (scaled_dot_product_attention q_1x1x1 kv_1x2x1 kv_1x2x1 (2 # 1)%Q
           (Some mask_1x1x2))
        (attention q_1x1x1 kv_1x2x1 kv_1x2x1 (2 # 1)%Q (Some mask_1x1x2)) /\
  same3 (scaled_dot_product_attention q_1x1x1 kv_1x2x1 kv_1x2x1 (2 # 1)%Q None)
        (attention q_1x1x1 kv_1x2x1 kv_1x2x1 (2 # 1)%Q None).
Proof.
  split;
    apply (@scaled_dot_product_attention_is_textbook
             reference_scalar.scalar reference_scalar_laws).
Defined.

Lemma dropout_zero_is_identity_and_one_divides_by_zero_witness :
  (exists r, dropout x_nd 0%Q true u_nd = Ok r /\ same_nd r x_nd) /\
  dropout x_nd 1%Q true u_nd = Raise (ZeroDivisionError "division by zero").
Proof.
  apply (@dropout_zero_is_identity_and_one_divides_by_zero
           reference_scalar.scalar reference_scalar_laws x_nd u_nd).
  intros i. unfold in_unit_interval. cbn.
  destruct i as [|[|[|n]] [|? ?]]; split; reflexivity.
Defined.


Lemma lstm_update_runs_once_per_timestep_witness :
  (dim0 x_2steps = 0 \/ dim1 x_2steps = 0 \/ dim2 x_2steps = 0 ->
     lstm_reshape.lstm_inputs x_2steps kernel_2x4 (Some bias_4) =
       Raise (lstm_reshape.reshape_error 0) /\
     lstm_reshape.lstm_update x_2steps (state_1x1 0%Q) (state_1x1 1%Q)
       kernel_2x4 recurrent_kernel_1x4 (Some bias_4) None =
       Raise (lstm_reshape.reshape_error 0)) /\
  (dim1 x_2steps = 0 -> 0 < dim2 x_2steps ->
     exists x_flat,
       lstm_reshape.reshape_flat x_2steps = Ok x_flat /\
       rows x_flat = 0 /\
       lstm_reshape.reshape_batch
         (add_bias (matmul x_flat kernel_2x4) (Some bias_4))
         (dim0 x_2steps) (dim1 x_2steps) = Raise (lstm_reshape.reshape_error 0)) /\
  (0 < dim0 x_2steps -> 0 < dim1 x_2steps -> 0 < dim2 x_2steps ->
     exists slices front last st h c hts hs,
       lstm_reshape.lstm_inputs x_2steps kernel_2x4 (Some bias_4) = Ok slices /\
       List.length slices = dim1 x_2steps /\
       slices = front ++ [last] /\
       lstm_loop recurrent_kernel_1x4 None (state_1x1 0%Q, state_1x1 1%Q, []) front =
         Ok st /\
       lstm_body recurrent_kernel_1x4 None st last = Ok (h, c, hts) /\
       List.length hts = dim1 x_2steps /\
       concat hts = Ok hs /\
       dim1 hs = dim1 x_2steps /\
       lstm_reshape.lstm_update x_2steps (state_1x1 0%Q) (state_1x1 1%Q)
         kernel_2x4 recurrent_kernel_1x4 (Some bias_4) None = Ok (hs, c)).
Proof.
  apply (@lstm_update_runs_once_per_timestep reference_scalar.scalar
           x_2steps (state_1x1 0%Q) (state_1x1 1%Q) kernel_2x4
           recurrent_kernel_1x4 (Some bias_4) None 1); reflexivity.
Defined.

(** With no timestep the reshape of line 547 gives a matrix of no row, the
    reshape of lines 551-554 to [[1, 0, -1]] refuses, and the call ends in
    that exception, which is not the one of concatenating an empty list. *)
Lemma lstm_update_no_timestep_raises_in_reshape :
  (exists x_flat,
     lstm_reshape.reshape_flat x_0steps = Ok x_flat /\
     (rows x_flat, cols x_flat) = (0, 2) /\
     lstm_reshape.reshape_batch (add_bias (matmul x_flat kernel_2x4) None) 1 0 =
       Raise (ValueError "cannot reshape array of size 0")) /\
  lstm_reshape.lstm_inputs x_0steps kernel_2x4 None =
    Raise (ValueError "cannot reshape array of size 0") /\
  lstm_reshape.lstm_update x_0steps (state_1x1 0%Q) (state_1x1 1%Q) kernel_2x4
    recurrent_kernel_1x4 None None =
    Raise (ValueError "cannot reshape array of size 0") /\
  lstm_reshape.lstm_update x_0steps (state_1x1 0%Q) (state_1x1 1%Q) kernel_2x4
    recurrent_kernel_1x4 None None <> Raise concat_error.
Proof.
  split; [eexists; repeat split|].
  repeat split. discriminate.
Qed.

(** With two timesteps the call returns. *)
Example lstm_update_two_timesteps :
  match lstm_update x_2steps (state_1x1 0%Q) (state_1x1 1%Q) kernel_2x4
          recurrent_kernel_1x4 (Some bias_4) None with
  | Ok (hs, _) => (dim0 hs, dim1 hs, dim2 hs) = (1, 2, 1)
  | Raise _ => False
  end.
Proof. reflexivity. Qed.

(** The entry whose sample is below [prob] is dropped, the other one is
    scaled by [1 / (1 - 1/2) = 2]. *)
Example dropout_half :
  match dropout x_nd (1 # 2)%Q true u_nd with
  | Ok r => Qeq_bool (item r [0]) 3 = true /\ Qeq_bool (item r [1]) 0 = true
  | Raise _ => False
  end.
Proof. cbn. split; reflexivity. Qed.

(** * Further properties *)

(** ** The torch sparse-array backend *)

Section SparseArrayMore.

Import torch sparse_array sparse_keywords.

Context {T : torch.API}.
Variable H : Helpers.

(** When every test of the chain answers no, nothing is checked, nothing is
    constructed and the call returns [None]. *)
Theorem native_sparse_array_nothing_identified data kw :
  (forall r, In r (test_outcomes H data kw) -> r = Ok false) ->
  run (native_sparse_array H data kw) = ([], Ok None).
Proof.
  intros Hall. unfold test_outcomes in Hall.
  assert (E0 := Hall _ (or_introl eq_refl)).
  assert (E1 := Hall _ (or_intror (or_introl eq_refl))).
  assert (E2 := Hall _ (or_intror (or_intror (or_introl eq_refl)))).
  assert (E3 := Hall _ (or_intror (or_intror (or_intror (or_introl eq_refl))))).
  assert (E4 := Hall _ (or_intror (or_intror (or_intror (or_intror
                          (or_introl eq_refl)))))).
  assert (E5 := Hall _ (or_intror (or_intror (or_intror (or_intror
                          (or_intror (or_introl eq_refl))))))).
  unfold run, native_sparse_array, bind, lift, ret.
  rewrite E0, E1, E2, E3, E4, E5. reflexivity.
Qed.

(** The first test of the chain that raises ends the call with its
    exception, before any check or constructor is called. *)
Theorem native_sparse_array_test_exception data kw k e :
  (forall i, i < k -> nth i (test_outcomes H data kw) (Ok false) = Ok false) ->
  nth k (test_outcomes H data kw) (Ok false) = Raise e ->
  run (native_sparse_array H data kw) = ([], Raise e).
Proof.
  intros Hbefore Hk. unfold test_outcomes in *.
  unfold run, native_sparse_array, bind, lift, ret.
  destruct k as [|[|[|[|[|[|k]]]]]]; cbn [nth] in Hk.
  - rewrite Hk. reflexivity.
  - assert (E0 := Hbefore 0 ltac:(lia)). cbn [nth] in E0.
    rewrite E0, Hk. reflexivity.
  - assert (E0 := Hbefore 0 ltac:(lia)). assert (E1 := Hbefore 1 ltac:(lia)).
    cbn [nth] in E0, E1. rewrite E0, E1, Hk. reflexivity.
  - assert (E0 := Hbefore 0 ltac:(lia)). assert (E1 := Hbefore 1 ltac:(lia)).
    assert (E2 := Hbefore 2 ltac:(lia)).
    cbn [nth] in E0, E1, E2. rewrite E0, E1, E2, Hk. reflexivity.
  - assert (E0 := Hbefore 0 ltac:(lia)). assert (E1 := Hbefore 1 ltac:(lia)).
    assert (E2 := Hbefore 2 ltac:(lia)). assert (E3 := Hbefore 3 ltac:(lia)).
    cbn [nth] in E0, E1, E2, E3. rewrite E0, E1, E2, E3, Hk. reflexivity.
  - assert (E0 := Hbefore 0 ltac:(lia)). assert (E1 := Hbefore 1 ltac:(lia)).
    assert (E2 := Hbefore 2 ltac:(lia)). assert (E3 := Hbefore 3 ltac:(lia)).
    assert (E4 := Hbefore 4 ltac:(lia)).
    cbn [nth] in E0, E1, E2, E3, E4. rewrite E0, E1, E2, E3, E4, Hk. reflexivity.
  - destruct k; discriminate Hk.
Qed.

(** A tensor that [is_native_sparse_array] accepts has one of the layouts
    COO, CSR, CSC, and the decomposition of such a tensor never raises. *)
Theorem recognized_tensors_are_decomposed (x : Tensor) :
  (is_native_sparse_array x = true <->
   In (layout_of x) [sparse_coo; sparse_csr; sparse_csc]) /\
  (is_native_sparse_array x = true ->
   exists r, native_sparse_array_to_indices_values_and_shape x = Ok r).
Proof.
  unfold is_native_sparse_array, native_sparse_array_to_indices_values_and_shape.
  destruct (layout_of x); cbn; split;
    try (intros; eauto; discriminate);
    split; intros Hx; try reflexivity; try discriminate; try tauto;
    repeat (destruct Hx as [Hx|Hx]; try discriminate Hx); contradiction.
Qed.

(** The dict returned for a tensor of a sparse layout is keyed by the
    parameter names of [native_sparse_array]: passed back as keyword
    arguments with the values and the size, it sets the components of the
    layout's format to what the tensor's accessors give and leaves the index
    arguments of every other format at [None]. *)
Theorem decomposition_names_the_parameters (x : Tensor) (f : format) :
  format_of_layout (layout_of x) = Some f ->
  exists d v s kw,
    native_sparse_array_to_indices_values_and_shape x = Ok (d, v, s) /\
    keywords_of d v s = Ok kw /\
    components_of f kw = own_components x f /\
    forall g, g <> f -> Forall (fun a => a = None) (index_arguments g kw).
Proof.
  unfold native_sparse_array_to_indices_values_and_shape.
  destruct (layout_of x); cbn; intros E; inversion E; subst f;
    do 4 eexists; (split; [reflexivity|]); (split; [reflexivity|]);
    (split; [reflexivity|]);
    intros g Hg; destruct g; try contradiction; cbn; repeat constructor.
Qed.


End SparseArrayMore.


Lemma native_sparse_array_nothing_identified_witness :
  sparse_array.run
    (sparse_array.native_sparse_array reference.helpers None reference.no_kwargs) =
  ([], Ok None).
Proof.
  apply (@native_sparse_array_nothing_identified reference.api reference.helpers
           None reference.no_kwargs).
  intros r Hr. vm_compute in Hr.
  repeat (destruct Hr as [Hr|Hr]; [symmetry; exact Hr|]). contradiction.
Defined.

Lemma native_sparse_array_test_exception_witness :
  sparse_array.run
    (sparse_array.native_sparse_array reference.helpers None
       reference_more.mixed_kwargs) =
  ([], Raise (IvyException "only specify the components of one format")).
Proof.
  apply (@native_sparse_array_test_exception reference.api reference.helpers
           None reference_more.mixed_kwargs 1).
  - intros i Hi. destruct i; [reflexivity | lia].
  - reflexivity.
Defined.

Lemma decomposition_names_the_parameters_witness :
  exists d v s kw,
    sparse_array.native_sparse_array_to_indices_values_and_shape
      (T := reference.api) (reference.a_tensor torch.sparse_csr) = Ok (d, v, s) /\
    sparse_keywords.keywords_of d v s = Ok kw /\
    sparse_array.components_of sparse_array.CSR kw =
      sparse_keywords.own_components (T := reference.api) (reference.a_tensor torch.sparse_csr)
        sparse_array.CSR /\
    forall g, g <> sparse_array.CSR ->
      Forall (fun a => a = None) (sparse_keywords.index_arguments g kw).
Proof.
  apply (@decomposition_names_the_parameters reference.api
           (reference.a_tensor torch.sparse_csr) sparse_array.CSR).
  reflexivity.
Defined.


(** ** [dropout] and [scaled_dot_product_attention] *)

Section LayersMore.

Import layers textbook.

Context {S : Scalar}.

#[local] Arguments sum_n {S} n f : simpl never.

(** Without scaling nothing is divided: for a draw in [0, 1), [prob = 1]
    gives the zero array of the shape of [x] and [prob = 0] gives [x]. *)
Theorem dropout_unscaled_extremes (x u : ndarray F) :
  (forall i, in_unit_interval (item u i)) ->
  (exists r, dropout x one false u = Ok r /\ same_nd r (zeros_like_nd x)) /\
  (exists r, dropout x zero false u = Ok r /\ same_nd r x).
Proof.
  intros Hu. unfold dropout. split; eexists; (split; [reflexivity|]);
    (split; [reflexivity|]); intros i; cbn; destruct (Hu i) as [H0 H1].
  - rewrite H1. reflexivity.
  - rewrite H0. reflexivity.
Qed.

(** A mask that is true everywhere changes nothing. *)
Theorem attention_with_full_mask (q k v : tensor3 F) (scale : F)
  (mask : tensor3 bool) :
  (forall n i j, at3 mask n i j = true) ->
  same3 (scaled_dot_product_attention q k v scale (Some mask))
        (scaled_dot_product_attention q k v scale None).
Proof.
  intros Hm. unfold same3, scaled_dot_product_attention. cbn.
  repeat split. intros n i j.
  apply sum_n_ext. intros l. rewrite Hm. cbn. f_equal. f_equal.
  apply sum_n_ext. intros j'. rewrite Hm. reflexivity.
Qed.

(** The output for a query whose keys are all masked depends on neither
    the queries, the keys nor the scale: every similarity of its row is
    replaced by the same constant, so that only the number of keys and the
    values of its batch entry reach it. *)
Theorem attention_fully_masked_query (q k v q' k' : tensor3 F)
  (scale scale' : F) (mask : tensor3 bool) (n i : nat) :
  dim1 k = dim1 k' ->
  (forall j, at3 mask n i j = false) ->
  forall f,
    at3 (scaled_dot_product_attention q k v scale (Some mask)) n i f =
    at3 (scaled_dot_product_attention q' k' v scale' (Some mask)) n i f.
Proof.
  intros Hk Hm f. unfold scaled_dot_product_attention. cbn.
  rewrite Hk. apply sum_n_ext. intros l. rewrite Hm. cbn. f_equal. f_equal.
  apply sum_n_ext. intros j'. rewrite Hm. reflexivity.
Qed.


End LayersMore.

(** ** [lstm_update] over rows, over time and over chunks *)

Section LstmMore.

Import layers textbook lstm_chunks.

Context {S : Scalar}.

#[local] Arguments sum_n {S} n f : simpl never.

Lemma agree_on_sym P (a a' : tensor2) : agree_on P a a' -> agree_on P a' a.
Proof.
  intros [Hc He]. split; [auto|]. intros b Hb j. symmetry. apply He, Hb.
Qed.









End LstmMore.

(** ** [linear]: the shapes it computes *)

Section LinearFacts.

Import linear_layer.

Lemma last_two_of_short (l : list nat) :
  List.length l < 2 -> exists msg, unpack2 (last_two l) = Raise (ValueError msg).
Proof.
  unfold last_two. destruct l as [|a [|b l]]; cbn; intros Hl; eauto; lia.
Qed.

Lemma split_last_two (l : list nat) :
  2 <= List.length l ->
  exists o i, last_two l = [o; i] /\ l = until_last_two l ++ [o; i].
Proof.
  intros Hl. unfold last_two, until_last_two.
  assert (Hlen : List.length (skipn (List.length l - 2) l) = 2)
    by (rewrite length_skipn; lia).
  destruct (skipn (List.length l - 2) l) as [|o [|i [|? ?]]] eqn:E;
    try discriminate Hlen.
  exists o, i. split; [reflexivity|].
  rewrite <- E. symmetry. apply firstn_skipn.
Qed.

Lemma size_of_app (a b : list nat) : size_of (a ++ b) = size_of a * size_of b.
Proof.
  unfold size_of. induction a as [|x a IH]; cbn; [lia|]. rewrite IH. lia.
Qed.

Lemma size_of_ones (k : Z) : size_of (ones k) = 1.
Proof.
  unfold ones, size_of. induction (Z.to_nat k) as [|n IH]; cbn; [reflexivity|].
  rewrite IH. reflexivity.
Qed.

Lemma length_ones (k : Z) : List.length (ones k) = Z.to_nat k.
Proof. unfold ones. apply repeat_length. Qed.

(** A weight of rank below two is refused when its last two dimensions are
    unpacked, whatever the input, the bias and the array operations. *)
Theorem linear_needs_a_matrix_weight {O : ArrayOps}
  (x weight : Arr) (bias : option Arr) :
  List.length (shape_of weight) < 2 ->
  exists msg, linear x weight bias = Raise (ValueError msg).
Proof.
  intros Hl. unfold linear, weight_reshape_shape.
  destruct (last_two_of_short _ Hl) as [msg Hmsg].
  rewrite Hmsg. cbn. eauto.
Qed.

(** The shape [weight] is reshaped to has as many entries as [weight], and
    the shape [bias] is reshaped to has as many as a bias of shape
    [outer_batch_shape + [out_features]]: neither reshape changes the number
    of entries. *)
Theorem linear_reshapes_keep_the_size (x_shape weight_shape : list nat) :
  2 <= List.length weight_shape ->
  exists out_feats in_feats wt bt,
    last_two weight_shape = [out_feats; in_feats] /\
    weight_reshape_shape x_shape weight_shape = Ok wt /\
    bias_reshape_shape x_shape weight_shape = Ok bt /\
    size_of wt = size_of weight_shape /\
    size_of bt = size_of (outer_batch_shape weight_shape ++ [out_feats]).
Proof.
  intros Hl. destruct (split_last_two _ Hl) as (o & i & Hlast & Hsplit).
  unfold weight_reshape_shape, bias_reshape_shape. rewrite Hlast. cbn [unpack2 rbind].
  exists o, i. eexists. eexists.
  split; [reflexivity|]. split; [reflexivity|]. split; [reflexivity|].
  unfold outer_batch_shape. split.
  - rewrite Hsplit at 3. rewrite !size_of_app, size_of_ones. lia.
  - rewrite !size_of_app, size_of_ones. lia.
Qed.

(** With at least one inner batch axis in [x], both reshaped arrays have
    the rank of [x]; with at most one, [weight] is reshaped to its own
    shape. *)
Theorem linear_reshapes_match_the_rank (x_shape weight_shape : list nat) :
  2 <= List.length weight_shape ->
  exists wt bt,
    weight_reshape_shape x_shape weight_shape = Ok wt /\
    bias_reshape_shape x_shape weight_shape = Ok bt /\
    (List.length weight_shape <= List.length x_shape ->
       List.length wt = List.length x_shape /\
       List.length bt = List.length x_shape) /\
    (List.length x_shape <= List.length weight_shape -> wt = weight_shape).
Proof.
  intros Hl. destruct (split_last_two _ Hl) as (o & i & Hlast & Hsplit).
  unfold weight_reshape_shape, bias_reshape_shape. rewrite Hlast. cbn [unpack2 rbind].
  eexists. eexists. split; [reflexivity|]. split; [reflexivity|].
  assert (Hinner : List.length (inner_batch_shape x_shape weight_shape) =
                   List.length x_shape - 1 - (List.length weight_shape - 2)).
  { unfold inner_batch_shape, from_until_last, outer_batch_shape, until_last_two.
    rewrite length_skipn, !length_firstn. lia. }
  assert (Houter : List.length (outer_batch_shape weight_shape) =
                   List.length weight_shape - 2).
  { unfold outer_batch_shape, until_last_two. rewrite length_firstn. lia. }
  split.
  - intros Hx. rewrite !length_app, !length_ones, Houter, Hinner. cbn. lia.
  - intros Hx. rewrite Hinner.
    replace (Z.max (Z.of_nat (List.length x_shape - 1 - (List.length weight_shape - 2)) - 1) 0)
      with 0%Z by lia.
    cbn. symmetry. exact Hsplit.
Qed.

End LinearFacts.

(** ** The further statements at concrete inputs *)

Import lstm_chunks linear_layer reference_more.

Lemma dropout_unscaled_extremes_witness :
  (exists r, dropout x_nd 1%Q false u_nd = Ok r /\ same_nd r (zeros_like_nd x_nd)) /\
  (exists r, dropout x_nd 0%Q false u_nd = Ok r /\ same_nd r x_nd).
Proof.
  apply (@dropout_unscaled_extremes reference_scalar.scalar x_nd u_nd).
  intros i. unfold in_unit_interval. cbn.
  destruct i as [|[|[|n]] [|? ?]]; split; reflexivity.
Defined.

Lemma attention_with_full_mask_witness :
  same3 (scaled_dot_product_attention q_1x1x1 kv_1x2x1 kv_1x2x1 (2 # 1)%Q
           (Some mask_all_true))
        (scaled_dot_product_attention q_1x1x1 kv_1x2x1 kv_1x2x1 (2 # 1)%Q None).
Proof.
  apply (@attention_with_full_mask reference_scalar.scalar).
  intros n i j. reflexivity.
Defined.

Lemma attention_fully_masked_query_witness :
  at3 (scaled_dot_product_attention q_1x1x1 kv_1x2x1 kv_1x2x1 (2 # 1)%Q
         (Some mask_all_false)) 0 0 0 =
  at3 (scaled_dot_product_attention q_other k_other kv_1x2x1 (1 # 3)%Q
         (Some mask_all_false)) 0 0 0.
Proof.
  apply (@attention_fully_masked_query reference_scalar.scalar
           q_1x1x1 kv_1x2x1 kv_1x2x1 q_other k_other (2 # 1)%Q (1 # 3)%Q
           mask_all_false 0 0).
  - reflexivity.
  - intros j. reflexivity.
Defined.




Lemma linear_needs_a_matrix_weight_witness :
  exists msg, linear (O := shape_ops) [3; 4] [4] None = Raise (ValueError msg).
Proof.
  apply (@linear_needs_a_matrix_weight shape_ops [3; 4] [4] None).
  cbn. lia.
Defined.

Lemma linear_reshapes_keep_the_size_witness :
  exists out_feats in_feats wt bt,
    last_two [2; 4] = [out_feats; in_feats] /\
    weight_reshape_shape [5; 3; 4] [2; 4] = Ok wt /\
    bias_reshape_shape [5; 3; 4] [2; 4] = Ok bt /\
    size_of wt = size_of [2; 4] /\
    size_of bt = size_of (outer_batch_shape [2; 4] ++ [out_feats]).
Proof.
  apply (@linear_reshapes_keep_the_size [5; 3; 4] [2; 4]).
  cbn. lia.
Defined.

Lemma linear_reshapes_match_the_rank_witness :
  exists wt bt,
    weight_reshape_shape [5; 3; 4] [2; 4] = Ok wt /\
    bias_reshape_shape [5; 3; 4] [2; 4] = Ok bt /\
    (List.length [2; 4] <= List.length [5; 3; 4] ->
       List.length wt = List.length [5; 3; 4] /\
       List.length bt = List.length [5; 3; 4]) /\
    (List.length [5; 3; 4] <= List.length [2; 4] -> wt = [2; 4]).
Proof.
  apply (@linear_reshapes_match_the_rank [5; 3; 4] [2; 4]).
  cbn. lia.
Defined.

(** Five sequences of three vectors through a layer with four inputs and
    two outputs, on shapes: the weight is reshaped to [[1; 2; 4]], the bias
    to [[1; 1; 2]], and the result has shape [[5; 3; 2]]. *)
Example linear_on_shapes :
  weight_reshape_shape [5; 3; 4] [2; 4] = Ok [1; 2; 4] /\
  bias_reshape_shape [5; 3; 4] [2; 4] = Ok [1; 1; 2] /\
  linear (O := shape_ops) [5; 3; 4] [2; 4] (Some [2]) = Ok [5; 3; 2].
Proof. repeat split. Qed.
